(** * awair-local-prom-exporter: the poller of [main.go], embedded and verified

    The program polls an Awair sensor over HTTP, decodes the JSON reading
    into [AwairStats] and copies the fields into fourteen Prometheus gauges.

    Layout of the development:
    - [float64]      : IEEE-754 binary64 values and the conversion [float64(int)];
    - [strconv]      : [ParseInt] and [ParseFloat] on number literals;
    - [json]         : the scanner of [encoding/json] (bytes to values) and the
                       decoding of an object into [AwairStats];
    - [prometheus]   : the default registry and gauges;
    - the program    : [initializeGauges], [getAwairData], [recordMetrics] and
                       the start-up sequence of [main];
    - the theorems. *)

From Stdlib Require Import ZArith NArith List String Ascii Bool Lia.
From Stdlib Require Import Floats.SpecFloat.
Import ListNotations.

Set Warnings "-register-all".

Local Open Scope string_scope.
Local Open Scope Z_scope.

(** ** Bytes

    A Go [[]byte] and a Go [string] are both sequences of bytes; they are
    [String.string] here, one [ascii] per byte. *)

Definition byte_of (c : ascii) : N := N_of_ascii c.

Definition isDigit (c : ascii) : bool :=
  (N.leb 48 (byte_of c) && N.leb (byte_of c) 57)%bool.

Definition digit_val (c : ascii) : Z := Z.of_N (byte_of c) - 48.

(** [dq] writes a byte string with apostrophes where the real one has double
    quotes, so that JSON texts stay readable in examples. *)
Fixpoint dq (s : string) : string :=
  match s with
  | EmptyString => EmptyString
  | String c r => String (if Ascii.eqb c "'" then ascii_of_N 34 else c) (dq r)
  end.

(** ** float64 *)

Module float64.

Definition t : Type := spec_float.

Definition prec : Z := 53.
Definition emax : Z := 1024.

(** The zero value of a Go [float64]. *)
Definition zero : t := S754_zero false.

(** [float64(n)] for an integer [n]: the nearest binary64, ties to even. *)
Definition of_int (n : Z) : t := binary_normalize prec emax n 0 false.

(** The nearest binary64 to [(-1)^neg * m * 10^e]. An overflow gives an
    infinity. *)
Definition of_decimal (neg : bool) (m : Z) (e : Z) : t :=
  match m with
  | Zpos p =>
      match e with
      | Zneg k =>
          SFdiv prec emax (S754_finite neg p 0)
                (S754_finite false (Pos.pow 10 k) 0)
      | _ => binary_normalize prec emax ((if neg then -1 else 1) * (m * 10 ^ e)) 0 neg
      end
  | _ => S754_zero neg
  end.

Definition is_finite (x : t) : bool :=
  match x with
  | S754_zero _ | S754_finite _ _ _ => true
  | _ => false
  end.

Definition eqb_bits (x y : t) : bool :=
  match x, y with
  | S754_zero a, S754_zero b => Bool.eqb a b
  | S754_infinity a, S754_infinity b => Bool.eqb a b
  | S754_nan, S754_nan => true
  | S754_finite a m e, S754_finite b n f =>
      (Bool.eqb a b && Pos.eqb m n && Z.eqb e f)%bool
  | _, _ => false
  end.

End float64.

Arguments float64.of_int : simpl never.
Arguments float64.of_decimal : simpl never.

(** ** strconv *)

Module strconv.

(** Reads a run of decimal digits: the digits as a number, how many there
    were, and the rest. *)
Fixpoint digits (acc : Z) (n : Z) (s : string) : Z * Z * string :=
  match s with
  | String c r =>
      if isDigit c then digits (10 * acc + digit_val c) (n + 1) r
      else (acc, n, s)
  | EmptyString => (acc, n, s)
  end.

Definition sign (s : string) : bool * string :=
  match s with
  | String "-" r => (true, r)
  | String "+" r => (false, r)
  | _ => (false, s)
  end.

Definition minInt64 : Z := - 2 ^ 63.
Definition maxInt64 : Z := 2 ^ 63 - 1.

(** [strconv.ParseInt(s, 10, 64)]: an optional sign and at least one
    decimal digit, nothing else; [None] is a syntax or a range error. *)
Definition ParseInt (s : string) : option Z :=
  let '(neg, r) := sign s in
  match digits 0 0 r with
  | (v, n, EmptyString) =>
      if n =? 0 then None
      else
        let v := if neg then - v else v in
        if (minInt64 <=? v) && (v <=? maxInt64) then Some v else None
  | _ => None
  end.

(** [strconv.ParseFloat(s, 64)] on decimal literals
    [sign digits [. digits] [e sign digits]]; [None] is a syntax or a range
    error (the value rounds to an infinity). *)
Definition ParseFloat (s : string) : option float64.t :=
  let '(neg, r) := sign s in
  let '(i, ni, r) := digits 0 0 r in
  let '(m, nf, r) :=
    match r with
    | String "." r' => digits i 0 r'
    | _ => (i, 0, r)
    end in
  if (ni + nf =? 0) then None
  else
    let exponent :=
      match r with
      | EmptyString => Some 0
      | String c r' =>
          if (Ascii.eqb c "e" || Ascii.eqb c "E")%bool then
            let '(eneg, r'') := sign r' in
            match digits 0 0 r'' with
            | (v, n, EmptyString) =>
                if n =? 0 then None else Some (if eneg then - v else v)
            | _ => None
            end
          else None
      end in
    match exponent with
    | None => None
    | Some e =>
        let x := float64.of_decimal neg m (e - nf) in
        if float64.is_finite x then Some x else None
    end.

End strconv.

(** ** encoding/json: the scanner

    [json.Unmarshal] first checks that the whole input is one valid JSON
    text, then decodes it. The values below are what the scanner delivers to
    the decoder: a number and a string keep the bytes of their literal (the
    decoder hands these bytes to [strconv] and to [UnmarshalJSON]), and an
    object key is already unquoted. *)

Inductive value : Type :=
| Null
| Bool (b : bool)
| Number (item : string)
| Str (raw : string)
| Array (elems : list value)
| Object (members : list (string * value)).

Module scanner.

Local Open Scope N_scope.

Definition isSpace (c : ascii) : bool :=
  (Ascii.eqb c " " || N.eqb (byte_of c) 9 || N.eqb (byte_of c) 13
   || N.eqb (byte_of c) 10)%bool.

Fixpoint skipSpace (s : string) : string :=
  match s with
  | String c r => if isSpace c then skipSpace r else s
  | EmptyString => s
  end.

Definition hexval (c : ascii) : option N :=
  let b := byte_of c in
  if (N.leb 48 b && N.leb b 57)%bool then Some (b - 48)%N
  else if (N.leb 97 b && N.leb b 102)%bool then Some (b - 87)%N
  else if (N.leb 65 b && N.leb b 70)%bool then Some (b - 55)%N
  else None.

Definition getu4 (a b c d : ascii) : option N :=
  match hexval a, hexval b, hexval c, hexval d with
  | Some x, Some y, Some z, Some w => Some (((x * 16 + y) * 16 + z) * 16 + w)%N
  | _, _, _, _ => None
  end.

Definition isSimpleEscape (c : ascii) : bool :=
  (N.eqb (byte_of c) 34 || Ascii.eqb c "\" || Ascii.eqb c "/" || Ascii.eqb c "b"
   || Ascii.eqb c "f" || Ascii.eqb c "n" || Ascii.eqb c "r" || Ascii.eqb c "t")%bool.

(** The bytes of a string literal after its opening quote, up to the
    closing one: the raw contents and what follows the literal. A control
    byte or a bad escape is a syntax error. *)
Fixpoint stringLit (s : string) : option (string * string) :=
  match s with
  | EmptyString => None
  | String c r =>
      if N.eqb (byte_of c) 34 then Some (EmptyString, r)
      else if N.ltb (byte_of c) 32 then None
      else if Ascii.eqb c "\" then
        match r with
        | String e r1 =>
            if isSimpleEscape e then
              match stringLit r1 with
              | Some (raw, rest) => Some (String c (String e raw), rest)
              | None => None
              end
            else if Ascii.eqb e "u" then
              match r1 with
              | String h1 (String h2 (String h3 (String h4 r2))) =>
                  match getu4 h1 h2 h3 h4, stringLit r2 with
                  | Some _, Some (raw, rest) =>
                      Some (String c (String e (String h1 (String h2
                             (String h3 (String h4 raw))))), rest)
                  | _, _ => None
                  end
              | _ => None
              end
            else None
        | EmptyString => None
        end
      else
        match stringLit r with
        | Some (raw, rest) => Some (String c raw, rest)
        | None => None
        end
  end.

(** UTF-8 encoding of a code point below 0x110000. *)
Definition utf8 (r : N) : string :=
  let b (n : N) := ascii_of_N n in
  if N.ltb r 128 then String (b r) EmptyString
  else if N.ltb r 2048 then
    String (b (192 + r / 64)) (String (b (128 + r mod 64)) EmptyString)
  else if N.ltb r 65536 then
    String (b (224 + r / 4096))
      (String (b (128 + (r / 64) mod 64)) (String (b (128 + r mod 64)) EmptyString))
  else
    String (b (240 + r / 262144))
      (String (b (128 + (r / 4096) mod 64))
         (String (b (128 + (r / 64) mod 64)) (String (b (128 + r mod 64)) EmptyString))).

Definition isSurrogate (r : N) : bool := (N.leb 55296 r && N.ltb r 57344)%bool.

Definition replacementChar : N := 65533.

(** [unquote] of the raw contents of a literal: escapes are replaced by
    the bytes they stand for; a surrogate pair gives one code point and a
    lone surrogate the replacement character. *)
Fixpoint unquote (raw : string) : string :=
  match raw with
  | EmptyString => EmptyString
  | String c r =>
      if Ascii.eqb c "\" then
        match r with
        | String "u" (String h1 (String h2 (String h3 (String h4 r2)))) =>
            match getu4 h1 h2 h3 h4 with
            | Some u =>
                if isSurrogate u then
                  match r2 with
                  | String "\" (String "u" (String k1 (String k2 (String k3 (String k4 r3))))) =>
                      match getu4 k1 k2 k3 k4 with
                      | Some v =>
                          if (N.ltb u 56320 && N.leb 56320 v && N.ltb v 57344)%bool
                          then utf8 (65536 + (u - 55296) * 1024 + (v - 56320)) ++ unquote r3
                          else utf8 replacementChar ++ unquote r2
                      | None => utf8 replacementChar ++ unquote r2
                      end
                  | _ => utf8 replacementChar ++ unquote r2
                  end
                else utf8 u ++ unquote r2
            | None => unquote r2
            end
        | String e r1 =>
            let d :=
              if Ascii.eqb e "b" then ascii_of_N 8
              else if Ascii.eqb e "f" then ascii_of_N 12
              else if Ascii.eqb e "n" then ascii_of_N 10
              else if Ascii.eqb e "r" then ascii_of_N 13
              else if Ascii.eqb e "t" then ascii_of_N 9
              else e in
            String d (unquote r1)
        | EmptyString => EmptyString
        end
      else String c (unquote r)
  end.

Fixpoint digitRun (s : string) : string * string :=
  match s with
  | String c r =>
      if isDigit c then let '(d, rest) := digitRun r in (String c d, rest)
      else (EmptyString, s)
  | EmptyString => (EmptyString, s)
  end.

(** A number literal: an optional minus, then 0 or a digit run that does
    not start with 0, then an optional fraction (a dot and digits) and an
    optional exponent (e or E, an optional sign, digits). *)
Definition numberLit (s : string) : option (string * string) :=
  let '(sgn, r) :=
    match s with
    | String "-" r => ("-", r)
    | _ => (EmptyString, s)
    end in
  let int :=
    match r with
    | String "0" r1 => Some ("0", r1)
    | String c _ => if isDigit c then Some (digitRun r) else None
    | EmptyString => None
    end in
  match int with
  | None => None
  | Some (i, r1) =>
      let frac :=
        match r1 with
        | String "." r2 =>
            match digitRun r2 with
            | (EmptyString, _) => None
            | (f, r3) => Some (String "." f, r3)
            end
        | _ => Some (EmptyString, r1)
        end in
      match frac with
      | None => None
      | Some (f, r3) =>
          let exp :=
            match r3 with
            | String c r4 =>
                if (Ascii.eqb c "e" || Ascii.eqb c "E")%bool then
                  let '(es, r5) :=
                    match r4 with
                    | String "+" r5 => ("+", r5)
                    | String "-" r5 => ("-", r5)
                    | _ => (EmptyString, r4)
                    end in
                  match digitRun r5 with
                  | (EmptyString, _) => None
                  | (d, r6) => Some (String c (es ++ d), r6)
                  end
                else Some (EmptyString, r3)
            | EmptyString => Some (EmptyString, r3)
            end in
          match exp with
          | None => None
          | Some (e, r6) => Some (sgn ++ i ++ f ++ e, r6)
          end
      end
  end.

Fixpoint stripPrefix (p s : string) : option string :=
  match p, s with
  | EmptyString, _ => Some s
  | String a p', String b s' => if Ascii.eqb a b then stripPrefix p' s' else None
  | _, _ => None
  end.

Definition maxNestingDepth : N := 10000.

(** One value at the head of [s] ([s] starts at its first byte), and the
    members of an object and the elements of an array after the opening
    bracket. [fuel] bounds the number of nested calls, [depth] counts the
    open brackets. *)
Fixpoint scanValue (fuel : nat) (depth : N) (s : string) : option (value * string) :=
  match fuel with
  | O => None
  | S fuel =>
      match s with
      | String "{" r =>
          if N.ltb maxNestingDepth (depth + 1) then None
          else
            match skipSpace r with
            | String "}" r1 => Some (Object [], r1)
            | r1 =>
                match scanMembers fuel (depth + 1)%N r1 with
                | Some (ms, r2) => Some (Object ms, r2)
                | None => None
                end
            end
      | String "[" r =>
          if N.ltb maxNestingDepth (depth + 1) then None
          else
            match skipSpace r with
            | String "]" r1 => Some (Array [], r1)
            | r1 =>
                match scanElems fuel (depth + 1)%N r1 with
                | Some (vs, r2) => Some (Array vs, r2)
                | None => None
                end
            end
      | String c r =>
          if N.eqb (byte_of c) 34 then
            match stringLit r with
            | Some (raw, r1) => Some (Str raw, r1)
            | None => None
            end
          else
            match stripPrefix "true" s, stripPrefix "false" s, stripPrefix "null" s with
            | Some r1, _, _ => Some (Bool true, r1)
            | _, Some r1, _ => Some (Bool false, r1)
            | _, _, Some r1 => Some (Null, r1)
            | _, _, _ =>
                match numberLit s with
                | Some (item, r1) => Some (Number item, r1)
                | None => None
                end
            end
      | EmptyString => None
      end
  end

with scanMembers (fuel : nat) (depth : N) (s : string)
  : option (list (string * value) * string) :=
  match fuel with
  | O => None
  | S fuel =>
      match s with
      | String c r =>
          if N.eqb (byte_of c) 34 then
            match stringLit r with
            | Some (rawkey, r1) =>
                match skipSpace r1 with
                | String ":" r2 =>
                    match scanValue fuel depth (skipSpace r2) with
                    | Some (v, r3) =>
                        match skipSpace r3 with
                        | String "}" r4 => Some ([(unquote rawkey, v)], r4)
                        | String "," r4 =>
                            match scanMembers fuel depth (skipSpace r4) with
                            | Some (ms, r5) => Some ((unquote rawkey, v) :: ms, r5)
                            | None => None
                            end
                        | _ => None
                        end
                    | None => None
                    end
                | _ => None
                end
            | None => None
            end
          else None
      | EmptyString => None
      end
  end

with scanElems (fuel : nat) (depth : N) (s : string) : option (list value * string) :=
  match fuel with
  | O => None
  | S fuel =>
      match scanValue fuel depth s with
      | Some (v, r1) =>
          match skipSpace r1 with
          | String "]" r2 => Some ([v], r2)
          | String "," r2 =>
              match scanElems fuel depth (skipSpace r2) with
              | Some (vs, r3) => Some (v :: vs, r3)
              | None => None
              end
          | _ => None
          end
      | None => None
      end
  end.

(** [checkValid] and the scan in one: the value of a whole input, [None]
    on a syntax error. Every nested call consumes a byte first, so a fuel
    of the length of the input plus one is never exhausted. *)
Definition scan (data : string) : option value :=
  match scanValue (S (String.length data)) 0 (skipSpace data) with
  | Some (v, rest) =>
      match skipSpace rest with
      | EmptyString => Some v
      | _ => None
      end
  | None => None
  end.

End scanner.

(** ** time

    The reading carries a [time.Time]. How a string is parsed as a time
    (RFC 3339, with the strictness of the Go release at hand) is left to an
    instance: nothing below depends on which strings are accepted. *)

Class TimePkg : Type := {
  Time : Type;
  (** The zero value [time.Time{}]. *)
  Time_zero : Time;
  (** The parse of the bytes between the quotes of a JSON string. *)
  Time_parse : string -> option Time
}.

(** ** Errors

    A Go [error] is an opaque value for the program: it is logged and handed
    back to the caller. The constructors tell the library it comes from. *)

Inductive error : Type :=
| url_Error (Op : string) (URL : string) (Err : string)
| io_Error (msg : string)
| json_SyntaxError
| json_UnmarshalTypeError (Value : string) (Field : string)
| time_ParseError (input : string).

(** ** The reading, [AwairStats] *)

Section Reading.

Context `{TimePkg}.

Record AwairStats : Type := {
  Timestamp : Time;
  Score : Z;
  DewPoint : float64.t;
  Temp : float64.t;
  Humid : float64.t;
  AbsHumid : float64.t;
  Co2 : Z;
  Co2Est : Z;
  Co2EstBaseline : Z;
  Voc : Z;
  VocBaseline : Z;
  VocH2Raw : Z;
  VocEthanolRaw : Z;
  Pm25 : Z;
  Pm10Est : Z
}.

(** [AwairStats{}]: every field at the zero value of its type. *)
Definition AwairStats_zero : AwairStats :=
  {| Timestamp := Time_zero; Score := 0; DewPoint := float64.zero;
     Temp := float64.zero; Humid := float64.zero; AbsHumid := float64.zero;
     Co2 := 0; Co2Est := 0; Co2EstBaseline := 0; Voc := 0; VocBaseline := 0;
     VocH2Raw := 0; VocEthanolRaw := 0; Pm25 := 0; Pm10Est := 0 |}.

End Reading.

(** The fields of the struct, in declaration order, with the name of their
    [json] tag and their kind. *)
Inductive field : Type :=
| FTimestamp | FScore | FDewPoint | FTemp | FHumid | FAbsHumid | FCo2 | FCo2Est
| FCo2EstBaseline | FVoc | FVocBaseline | FVocH2Raw | FVocEthanolRaw | FPm25
| FPm10Est.

Inductive kind : Type := KTime | KInt | KFloat64.

Definition fields : list field :=
  [FTimestamp; FScore; FDewPoint; FTemp; FHumid; FAbsHumid; FCo2; FCo2Est;
   FCo2EstBaseline; FVoc; FVocBaseline; FVocH2Raw; FVocEthanolRaw; FPm25;
   FPm10Est].

Definition tag (f : field) : string :=
  match f with
  | FTimestamp => "timestamp"
  | FScore => "score"
  | FDewPoint => "dew_point"
  | FTemp => "temp"
  | FHumid => "humid"
  | FAbsHumid => "abs_humid"
  | FCo2 => "co2"
  | FCo2Est => "co2_est"
  | FCo2EstBaseline => "co2_est_baseline"
  | FVoc => "voc"
  | FVocBaseline => "voc_baseline"
  | FVocH2Raw => "voc_h2_raw"
  | FVocEthanolRaw => "voc_ethanol_raw"
  | FPm25 => "pm25"
  | FPm10Est => "pm10_est"
  end.

Definition kind_of (f : field) : kind :=
  match f with
  | FTimestamp => KTime
  | FDewPoint | FTemp | FHumid | FAbsHumid => KFloat64
  | _ => KInt
  end.

Definition field_eqb (f g : field) : bool :=
  match f, g with
  | FTimestamp, FTimestamp | FScore, FScore | FDewPoint, FDewPoint
  | FTemp, FTemp | FHumid, FHumid | FAbsHumid, FAbsHumid | FCo2, FCo2
  | FCo2Est, FCo2Est | FCo2EstBaseline, FCo2EstBaseline | FVoc, FVoc
  | FVocBaseline, FVocBaseline | FVocH2Raw, FVocH2Raw
  | FVocEthanolRaw, FVocEthanolRaw | FPm25, FPm25 | FPm10Est, FPm10Est => true
  | _, _ => false
  end.

(** ** encoding/json: decoding into [AwairStats] *)

Module json.

(** [foldName]: the key under which names are compared when no field has
    exactly the name of the key. ASCII letters go to upper case; the two
    characters outside ASCII whose simple case folding is an ASCII letter,
    U+017F (bytes C5 BF) and U+212A (bytes E2 84 AA), go to S and K. Other
    bytes stay: a name with one of them equals no tag of the struct. *)
Fixpoint foldName (s : string) : string :=
  match s with
  | EmptyString => EmptyString
  | String c r =>
      let b := byte_of c in
      if (N.leb 97 b && N.leb b 122)%bool then String (ascii_of_N (b - 32)) (foldName r)
      else
        match r with
        | String c1 r1 =>
            if (N.eqb b 197 && N.eqb (byte_of c1) 191)%bool then String "S" (foldName r1)
            else
              match r1 with
              | String c2 r2 =>
                  if (N.eqb b 226 && N.eqb (byte_of c1) 132 && N.eqb (byte_of c2) 170)%bool
                  then String "K" (foldName r2)
                  else String c (foldName r)
              | EmptyString => String c (foldName r)
              end
        | EmptyString => String c EmptyString
        end
  end.

(** The field a key of the object is stored in: the one with exactly that
    name, else the one with that name up to case. *)
Definition fieldOf (key : string) : option field :=
  match find (fun f => String.eqb (tag f) key) fields with
  | Some f => Some f
  | None => find (fun f => String.eqb (foldName (tag f)) (foldName key)) fields
  end.

Section Decode.

Context `{TimePkg}.

Definition setTime (t : Time) (a : AwairStats) : AwairStats :=
  {| Timestamp := t; Score := Score a; DewPoint := DewPoint a; Temp := Temp a;
     Humid := Humid a; AbsHumid := AbsHumid a; Co2 := Co2 a; Co2Est := Co2Est a;
     Co2EstBaseline := Co2EstBaseline a; Voc := Voc a;
     VocBaseline := VocBaseline a; VocH2Raw := VocH2Raw a;
     VocEthanolRaw := VocEthanolRaw a; Pm25 := Pm25 a; Pm10Est := Pm10Est a |}.

Definition setInt (f : field) (n : Z) (a : AwairStats) : AwairStats :=
  let at_ (g : field) (old : Z) := if field_eqb f g then n else old in
  {| Timestamp := Timestamp a; Score := at_ FScore (Score a);
     DewPoint := DewPoint a; Temp := Temp a; Humid := Humid a;
     AbsHumid := AbsHumid a; Co2 := at_ FCo2 (Co2 a);
     Co2Est := at_ FCo2Est (Co2Est a);
     Co2EstBaseline := at_ FCo2EstBaseline (Co2EstBaseline a);
     Voc := at_ FVoc (Voc a); VocBaseline := at_ FVocBaseline (VocBaseline a);
     VocH2Raw := at_ FVocH2Raw (VocH2Raw a);
     VocEthanolRaw := at_ FVocEthanolRaw (VocEthanolRaw a);
     Pm25 := at_ FPm25 (Pm25 a); Pm10Est := at_ FPm10Est (Pm10Est a) |}.

Definition setFloat (f : field) (x : float64.t) (a : AwairStats) : AwairStats :=
  let at_ (g : field) (old : float64.t) := if field_eqb f g then x else old in
  {| Timestamp := Timestamp a; Score := Score a;
     DewPoint := at_ FDewPoint (DewPoint a); Temp := at_ FTemp (Temp a);
     Humid := at_ FHumid (Humid a); AbsHumid := at_ FAbsHumid (AbsHumid a);
     Co2 := Co2 a; Co2Est := Co2Est a; Co2EstBaseline := Co2EstBaseline a;
     Voc := Voc a; VocBaseline := VocBaseline a; VocH2Raw := VocH2Raw a;
     VocEthanolRaw := VocEthanolRaw a; Pm25 := Pm25 a; Pm10Est := Pm10Est a |}.

(** The decoder's state: the struct being filled and the first type
    error met so far ([savedError]); a type error does not stop the
    decoding. *)
Record decodeState : Type := {
  target : AwairStats;
  savedError : option error
}.

Definition saveError (e : error) (d : decodeState) : decodeState :=
  {| target := target d;
     savedError := match savedError d with Some e0 => Some e0 | None => Some e end |}.

Definition store (a : AwairStats) (d : decodeState) : decodeState :=
  {| target := a; savedError := savedError d |}.

(** The name of a kind of value in an [UnmarshalTypeError]. *)
Definition describe (v : value) : string :=
  match v with
  | Null => "null"
  | Bool _ => "bool"
  | Number item => "number " ++ item
  | Str _ => "string"
  | Array _ => "array"
  | Object _ => "object"
  end.

(** [Time.UnmarshalJSON] on the bytes of a value: [null] is a no-op,
    a string is parsed, anything else is an error. *)
Definition Time_UnmarshalJSON (v : value) (t : Time) : Time * option error :=
  match v with
  | Null => (t, None)
  | Str raw =>
      match Time_parse raw with
      | Some t' => (t', None)
      | None => (Time_zero, Some (time_ParseError raw))
      end
  | _ => (t, Some (time_ParseError (describe v)))
  end.

(** One value stored into one field. The result is [inr] when the
    decoding stops at once (an error of [UnmarshalJSON]). *)
Definition storeField (f : field) (v : value) (d : decodeState)
  : decodeState + (AwairStats * error) :=
  let a := target d in
  match kind_of f with
  | KTime =>
      match Time_UnmarshalJSON v (Timestamp a) with
      | (t, None) => inl (store (setTime t a) d)
      | (t, Some e) => inr (setTime t a, e)
      end
  | KInt =>
      match v with
      | Null => inl d
      | Number item =>
          match strconv.ParseInt item with
          | Some n => inl (store (setInt f n a) d)
          | None => inl (saveError (json_UnmarshalTypeError (describe v) (tag f)) d)
          end
      | _ => inl (saveError (json_UnmarshalTypeError (describe v) (tag f)) d)
      end
  | KFloat64 =>
      match v with
      | Null => inl d
      | Number item =>
          match strconv.ParseFloat item with
          | Some x => inl (store (setFloat f x a) d)
          | None => inl (saveError (json_UnmarshalTypeError (describe v) (tag f)) d)
          end
      | _ => inl (saveError (json_UnmarshalTypeError (describe v) (tag f)) d)
      end
  end.

(** The members of the object, in the order of the text; a key that
    names no field is skipped with its value. *)
Fixpoint object (ms : list (string * value)) (d : decodeState)
  : decodeState + (AwairStats * error) :=
  match ms with
  | [] => inl d
  | (key, v) :: ms' =>
      match fieldOf key with
      | None => object ms' d
      | Some f =>
          match storeField f v d with
          | inl d' => object ms' d'
          | inr stop => inr stop
          end
      end
  end.

(** [json.Unmarshal(data, &a)]: the struct after the call and the error
    returned ([None] is [nil]). *)
Definition Unmarshal (data : string) (a : AwairStats) : AwairStats * option error :=
  match scanner.scan data with
  | None => (a, Some json_SyntaxError)
  | Some Null => (a, None)
  | Some (Object ms) =>
      match object ms {| target := a; savedError := None |} with
      | inl d => (target d, savedError d)
      | inr (a', e) => (a', Some e)
      end
  | Some v => (a, Some (json_UnmarshalTypeError (describe v) EmptyString))
  end.

End Decode.

End json.

(** ** prometheus: gauges and the default registry

    [promauto.NewGauge] builds a gauge and registers it with the default
    registry; the handle the program keeps is the fully-qualified name under
    which the gauge is registered. *)

Record GaugeOpts : Type := {
  Namespace : string;
  Subsystem : string;
  Name : string;
  Help : string
}.

Record gauge : Type := {
  fqName : string;
  help : string;
  val : float64.t
}.

(** A [prometheus.Gauge] held in a struct field; [None] is the nil interface. *)
Definition Gauge : Type := option string.

Module prometheus.

Definition join (a b : string) : string := a ++ "_" ++ b.

Definition BuildFQName (namespace subsystem name : string) : string :=
  if String.eqb name "" then ""
  else if negb (String.eqb namespace "") && negb (String.eqb subsystem "")
       then join namespace (join subsystem name)
  else if negb (String.eqb namespace "") then join namespace name
  else if negb (String.eqb subsystem "") then join subsystem name
  else name.

Definition isNameStart (c : ascii) : bool :=
  let b := byte_of c in
  ((N.leb 97 b && N.leb b 122) || (N.leb 65 b && N.leb b 90)
   || Ascii.eqb c "_" || Ascii.eqb c ":")%bool.

Fixpoint allChars (p : ascii -> bool) (s : string) : bool :=
  match s with
  | EmptyString => true
  | String c r => (p c && allChars p r)%bool
  end.

Definition IsValidMetricName (n : string) : bool :=
  match n with
  | EmptyString => false
  | String c r => (isNameStart c && allChars (fun c => isNameStart c || isDigit c)%bool r)%bool
  end.

Definition registered (n : string) (r : list gauge) : bool :=
  existsb (fun g => String.eqb (fqName g) n) r.

(** The value a scrape reads for a name. *)
Definition read (n : string) (r : list gauge) : option float64.t :=
  match find (fun g => String.eqb (fqName g) n) r with
  | Some g => Some (val g)
  | None => None
  end.

(** [Set] on the gauge registered as [n]. *)
Definition set (n : string) (x : float64.t) (r : list gauge) : list gauge :=
  map (fun g => if String.eqb (fqName g) n
                then {| fqName := fqName g; help := help g; val := x |}
                else g) r.

(** What a scrape of the registry exposes: every name with its value. *)
Definition Gather (r : list gauge) : list (string * float64.t) :=
  map (fun g => (fqName g, val g)) r.

End prometheus.

(** ** The state of the process and the monad of the program *)

Inductive task : Type := task_recordMetrics | task_ListenAndServe.

(** What the program asks of its libraries and of the outside, in order. *)
Inductive event : Type :=
| EvRegister (name : string)
| EvHandle (pattern : string)
| EvGo (t : task)
| EvNewTicker (d : Z)
| EvTickerStop
| EvWithTimeout (d : Z)
| EvCancel
| EvNewRequest (method url : string)
| EvDo (url : string)
| EvReadAll
| EvBodyClose.

Inductive level : Type := InfoLevel | ErrorLevel.

Section Program.

Context `{TimePkg}.

Inductive zapField : Type :=
| zap_Error (e : error)
| zap_Any (key : string) (a : AwairStats)
| zap_String (key val : string)
| zap_Duration (key : string) (d : Z).

Record entry : Type := {
  Level : level;
  Message : string;
  Fields : list zapField
}.

Record State : Type := {
  registry : list gauge;
  logs : list entry;
  events : list event
}.

Inductive outcome (A : Type) : Type :=
| Returns (a : A) (s : State)
| Panics (v : string) (s : State).

Arguments Returns {A} a s.
Arguments Panics {A} v s.

Definition M (A : Type) : Type := State -> outcome A.

Definition ret {A : Type} (a : A) : M A := fun s => Returns a s.

Definition bind {A B : Type} (c : M A) (k : A -> M B) : M B :=
  fun s =>
    match c s with
    | Returns a s' => k a s'
    | Panics v s' => Panics v s'
    end.

Definition panic {A : Type} (v : string) : M A := fun s => Panics v s.

(** [defer d] around a body: [d] runs when the body returns, and also when
    it panics. *)
Definition defer {A : Type} (d : M unit) (body : M A) : M A :=
  fun s =>
    match body s with
    | Returns a s' =>
        match d s' with
        | Returns _ s'' => Returns a s''
        | Panics v s'' => Panics v s''
        end
    | Panics v s' =>
        match d s' with
        | Returns _ s'' => Panics v s''
        | Panics v' s'' => Panics v' s''
        end
    end.

Definition emit (e : event) : M unit :=
  fun s => Returns tt {| registry := registry s; logs := logs s;
                         events := events s ++ [e] |}.

Definition log (l : level) (msg : string) (fs : list zapField) : M unit :=
  fun s => Returns tt {| registry := registry s;
                         logs := logs s ++ [{| Level := l; Message := msg; Fields := fs |}];
                         events := events s |}.

Definition Logger_Error := log ErrorLevel.
Definition Logger_Info := log InfoLevel.

End Program.

Arguments Returns {_ A} a s.
Arguments Panics {_ A} v s.

Declare Scope go_scope.
Delimit Scope go_scope with go.
Notation "x <- c ;; k" := (bind c (fun x => k))
  (at level 61, c at next level, right associativity) : go_scope.
Notation "c ;; k" := (bind c (fun _ => k))
  (at level 61, right associativity) : go_scope.
Local Open Scope go_scope.

Section Gauges.

Context `{TimePkg}.

(** [prometheus.NewGauge(opts)] then [DefaultRegisterer.MustRegister]: a
    gauge at zero; a name that is not a metric name or that is registered
    already makes [MustRegister] panic. *)
Definition promauto_NewGauge (opts : GaugeOpts) : M Gauge :=
  fun s =>
    let n := prometheus.BuildFQName (Namespace opts) (Subsystem opts) (Name opts) in
    if negb (prometheus.IsValidMetricName n) then
      Panics ("invalid metric name: " ++ n) s
    else if prometheus.registered n (registry s) then
      Panics "duplicate metrics collector registration attempted" s
    else
      Returns (Some n)
        {| registry := registry s ++ [{| fqName := n; help := Help opts; val := float64.zero |}];
           logs := logs s;
           events := events s ++ [EvRegister n] |}.

(** [g.Set(x)]; on the nil interface the call panics. *)
Definition Gauge_Set (g : Gauge) (x : float64.t) : M unit :=
  fun s =>
    match g with
    | None => Panics "invalid memory address or nil pointer dereference" s
    | Some n =>
        Returns tt {| registry := prometheus.set n x (registry s);
                      logs := logs s; events := events s |}
    end.

End Gauges.

(** ** The program *)

(** The gauge fields of [App], in declaration order. *)
Inductive gaugeField : Type :=
| GTemp | GHumidity | GCo2 | GVOC | GPM25 | GScore | GDewPoint | GAbsoluteHumidity
| GCo2Estimate | GCo2EstimateBaselines | GVOCBaseline | GVOCH2Raw | GVocEthanolRaw
| GPm10Estimate.

Definition gaugeField_eqb (f g : gaugeField) : bool :=
  match f, g with
  | GTemp, GTemp | GHumidity, GHumidity | GCo2, GCo2 | GVOC, GVOC | GPM25, GPM25
  | GScore, GScore | GDewPoint, GDewPoint | GAbsoluteHumidity, GAbsoluteHumidity
  | GCo2Estimate, GCo2Estimate | GCo2EstimateBaselines, GCo2EstimateBaselines
  | GVOCBaseline, GVOCBaseline | GVOCH2Raw, GVOCH2Raw
  | GVocEthanolRaw, GVocEthanolRaw | GPm10Estimate, GPm10Estimate => true
  | _, _ => false
  end.

(** [App]. The logger is not a field here: what it writes goes to the [logs]
    of the state. A [time.Duration] is a number of nanoseconds. *)
Record App : Type := {
  ListenAddress : string;
  ListenPort : Z;
  AwairAddress : string;
  TimeBetweenChecks : Z;

  TempGauge : Gauge;
  HumidityGauge : Gauge;
  Co2Gauge : Gauge;
  VOCGauge : Gauge;
  PM25Gauge : Gauge;
  ScoreGauge : Gauge;
  DewPointGauge : Gauge;
  AbsoluteHumidityGauge : Gauge;
  Co2EstimateGauge : Gauge;
  Co2EstimateBaselinesGauge : Gauge;
  VOCBaselineGauge : Gauge;
  VOCH2RawGauge : Gauge;
  VocEthanolRawGauge : Gauge;
  Pm10EstimateGauge : Gauge
}.

(** The assignment [app.<field> = g]. *)
Definition assign (f : gaugeField) (g : Gauge) (app : App) : App :=
  let at_ (f' : gaugeField) (old : Gauge) := if gaugeField_eqb f f' then g else old in
  {| ListenAddress := ListenAddress app; ListenPort := ListenPort app;
     AwairAddress := AwairAddress app; TimeBetweenChecks := TimeBetweenChecks app;
     TempGauge := at_ GTemp (TempGauge app);
     HumidityGauge := at_ GHumidity (HumidityGauge app);
     Co2Gauge := at_ GCo2 (Co2Gauge app);
     VOCGauge := at_ GVOC (VOCGauge app);
     PM25Gauge := at_ GPM25 (PM25Gauge app);
     ScoreGauge := at_ GScore (ScoreGauge app);
     DewPointGauge := at_ GDewPoint (DewPointGauge app);
     AbsoluteHumidityGauge := at_ GAbsoluteHumidity (AbsoluteHumidityGauge app);
     Co2EstimateGauge := at_ GCo2Estimate (Co2EstimateGauge app);
     Co2EstimateBaselinesGauge := at_ GCo2EstimateBaselines (Co2EstimateBaselinesGauge app);
     VOCBaselineGauge := at_ GVOCBaseline (VOCBaselineGauge app);
     VOCH2RawGauge := at_ GVOCH2Raw (VOCH2RawGauge app);
     VocEthanolRawGauge := at_ GVocEthanolRaw (VocEthanolRawGauge app);
     Pm10EstimateGauge := at_ GPm10Estimate (Pm10EstimateGauge app) |}.

(** *** context and net/http *)

Definition Second : Z := 1000000000.

(** A context: whether it is cancelled already, and the timeouts set on the
    way to it (the innermost first). *)
Record Context : Type := {
  cancelled : bool;
  timeouts : list Z
}.

Definition context_WithTimeout (parent : Context) (d : Z) : Context :=
  {| cancelled := cancelled parent; timeouts := d :: timeouts parent |}.

Definition MethodGet : string := "GET".

Record Request : Type := {
  req_ctx : Context;
  Method : string;
  URL : string
}.

(** A response: its status code, and what reading its body to the end
    gives, the bytes or an error. *)
Record Response : Type := {
  StatusCode : Z;
  Body : string + error
}.

(** What is outside the process at the time of one poll: which addresses
    parse as URLs, and what the transport answers to a request. *)
Record World : Type := {
  url_Parse : string -> option error;
  RoundTrip : Request -> Response + error
}.

Section Poller.

Context `{TimePkg}.

Definition http_NewRequestWithContext (w : World) (ctx : Context) (method url : string)
  : M (Request + error) :=
  emit (EvNewRequest method url) ;;
  match url_Parse w url with
  | Some err => ret (inr err)
  | None => ret (inl {| req_ctx := ctx; Method := method; URL := url |})
  end.

Definition http_DefaultClient_Do (w : World) (req : Request) : M (Response + error) :=
  emit (EvDo (URL req)) ;;
  ret (RoundTrip w req).

Definition ioutil_ReadAll (body : string + error) : M (string + error) :=
  emit EvReadAll ;;
  ret body.

Definition initializeGauges (app : App) : M App :=
  g <- promauto_NewGauge
         {| Namespace := "awair"; Subsystem := "climate"; Name := "temp_c";
            Help := "Dry bulb temperature (ºC)" |} ;;
  let app := assign GTemp g app in
  g <- promauto_NewGauge
         {| Namespace := "awair"; Subsystem := "climate"; Name := "relative_humidity";
            Help := "Relative Humidity (%)" |} ;;
  let app := assign GHumidity g app in
  g <- promauto_NewGauge
         {| Namespace := "awair"; Subsystem := "climate"; Name := "co2_ppm";
            Help := "Carbon Dioxide (ppm)" |} ;;
  let app := assign GCo2 g app in
  g <- promauto_NewGauge
         {| Namespace := "awair"; Subsystem := "climate"; Name := "voc_ppb";
            Help := "Total Volatile Organic Compounds (ppb)" |} ;;
  let app := assign GVOC g app in
  g <- promauto_NewGauge
         {| Namespace := "awair"; Subsystem := "climate"; Name := "pm25_ug_m3";
            Help := "Particulate matter less than 2.5 microns in diameter (µg/m³)" |} ;;
  let app := assign GPM25 g app in
  g <- promauto_NewGauge
         {| Namespace := "awair"; Subsystem := "climate"; Name := "score";
            Help := "Awair Score (0-100)" |} ;;
  let app := assign GScore g app in
  g <- promauto_NewGauge
         {| Namespace := "awair"; Subsystem := "climate"; Name := "dew_point_c";
            Help := "The temperature at which water will condense and form into dew (ºC)" |} ;;
  let app := assign GDewPoint g app in
  g <- promauto_NewGauge
         {| Namespace := "awair"; Subsystem := "climate"; Name := "absolute_humidity";
            Help := "Absolute Humidity (g/m³)" |} ;;
  let app := assign GAbsoluteHumidity g app in
  g <- promauto_NewGauge
         {| Namespace := "awair"; Subsystem := "climate"; Name := "co2_estimate";
            Help := "Estimated Carbon Dioxide (ppm - calculated by the TVOC sensor)" |} ;;
  let app := assign GCo2Estimate g app in
  g <- promauto_NewGauge
         {| Namespace := "awair"; Subsystem := "climate"; Name := "co2_estimate_baselines";
            Help := "A unitless value that represents the baseline from which the TVOC sensor partially derives its estimated (e)CO₂output." |} ;;
  let app := assign GCo2EstimateBaselines g app in
  g <- promauto_NewGauge
         {| Namespace := "awair"; Subsystem := "climate"; Name := "voc_baseline";
            Help := "A unitless value that represents the baseline from which the TVOC sensor partially derives its TVOC output." |} ;;
  let app := assign GVOCBaseline g app in
  g <- promauto_NewGauge
         {| Namespace := "awair"; Subsystem := "climate"; Name := "voc_h2_raw";
            Help := "A unitless value that represents the Hydrogen gas signal from which the TVOC sensor partially derives its TVOC output." |} ;;
  let app := assign GVOCH2Raw g app in
  g <- promauto_NewGauge
         {| Namespace := "awair"; Subsystem := "climate"; Name := "voc_ethanol_raw";
            Help := "A unitless value that represents the Ethanol gas signal from which the TVOC sensor partially derives its TVOC output." |} ;;
  let app := assign GVocEthanolRaw g app in
  g <- promauto_NewGauge
         {| Namespace := "awair"; Subsystem := "climate"; Name := "pm10_estimate";
            Help := "Estimated particulate matter less than 10 microns in diameter (µg/m³ - calculated by the PM2.5 sensor)" |} ;;
  let app := assign GPm10Estimate g app in
  ret app.

Definition getAwairData (app : App) (w : World) (ctx : Context) : M (option error) :=
  let ctx := context_WithTimeout ctx Second in
  emit (EvWithTimeout Second) ;;
  defer (emit EvCancel) (
    r <- http_NewRequestWithContext w ctx MethodGet (AwairAddress app) ;;
    match r with
    | inr err =>
        Logger_Error "Error creating request" [zap_Error err] ;;
        ret (Some err)
    | inl req =>
        r <- http_DefaultClient_Do w req ;;
        match r with
        | inr err =>
            Logger_Error "Error getting data from awair" [zap_Error err] ;;
            ret (Some err)
        | inl resp =>
            defer (emit EvBodyClose) (
              r <- ioutil_ReadAll (Body resp) ;;
              match r with
              | inr err =>
                  Logger_Error "Error reading response body" [zap_Error err] ;;
                  ret (Some err)
              | inl body =>
                  let '(awairStats, err) := json.Unmarshal body AwairStats_zero in
                  match err with
                  | Some err =>
                      Logger_Error "Error unmarshalling response body" [zap_Error err] ;;
                      ret (Some err)
                  | None =>
                      Gauge_Set (TempGauge app) (Temp awairStats) ;;
                      Gauge_Set (HumidityGauge app) (Humid awairStats) ;;
                      Gauge_Set (Co2Gauge app) (float64.of_int (Co2 awairStats)) ;;
                      Gauge_Set (VOCGauge app) (float64.of_int (Voc awairStats)) ;;
                      Gauge_Set (PM25Gauge app) (float64.of_int (Pm25 awairStats)) ;;
                      Gauge_Set (ScoreGauge app) (float64.of_int (Score awairStats)) ;;
                      Gauge_Set (DewPointGauge app) (DewPoint awairStats) ;;
                      Gauge_Set (AbsoluteHumidityGauge app) (AbsHumid awairStats) ;;
                      Gauge_Set (Co2EstimateGauge app) (float64.of_int (Co2Est awairStats)) ;;
                      Gauge_Set (Co2EstimateBaselinesGauge app)
                                (float64.of_int (Co2EstBaseline awairStats)) ;;
                      Gauge_Set (VOCBaselineGauge app) (float64.of_int (VocBaseline awairStats)) ;;
                      Gauge_Set (VOCH2RawGauge app) (float64.of_int (VocH2Raw awairStats)) ;;
                      Gauge_Set (VocEthanolRawGauge app)
                                (float64.of_int (VocEthanolRaw awairStats)) ;;
                      Gauge_Set (Pm10EstimateGauge app) (float64.of_int (Pm10Est awairStats)) ;;
                      Logger_Info "Successfully recorded metrics from Awair"
                                  [zap_Any "metrics" awairStats] ;;
                      ret None
                  end
              end)
        end
    end).

(** What one [select] of the loop receives: a tick (with the world as it
    is during the poll that follows) or the end of the context. *)
Inductive selected : Type :=
| case_ticker_C (w : World)
| case_ctx_Done.

(** How the run of a loop over a finite schedule ends: the function
    returned, or it waits in [select] for what comes next. *)
Inductive loopEnd : Type := Returned | Waiting.

Fixpoint loop (app : App) (ctx : Context) (sched : list selected) : M loopEnd :=
  match sched with
  | [] => ret Waiting
  | case_ticker_C w :: rest =>
      _ <- getAwairData app w ctx ;;
      loop app ctx rest
  | case_ctx_Done :: _ => ret Returned
  end.

(** [time.NewTicker] panics on an interval that is not positive. *)
Definition time_NewTicker (d : Z) : M unit :=
  if d <=? 0 then panic "non-positive interval for NewTicker"
  else emit (EvNewTicker d).

(** The deferred [ticker.Stop] runs when the function returns or panics; a
    run that still waits in [select] has not reached it. *)
Definition recordMetrics (app : App) (ctx : Context) (sched : list selected) : M loopEnd :=
  time_NewTicker (TimeBetweenChecks app) ;;
  fun s =>
    match loop app ctx sched s with
    | Returns Waiting s' => Returns Waiting s'
    | o => defer (emit EvTickerStop) (fun _ => o) s
    end.

(** The values of the four flags after [pflag.Parse]. *)
Record Flags : Type := {
  flag_listen : string;
  flag_port : Z;
  flag_awair_address : string;
  flag_poll_frequency : Z
}.

Definition defaultFlags : Flags :=
  {| flag_listen := "0.0.0.0"; flag_port := 2112;
     flag_awair_address := "http://localhost/air-data/latest";
     flag_poll_frequency := 30 * Second |}.

(** [main] up to the point where both tasks are handed to the group: the
    struct with the flags, the gauges, the handler, the two [group.Go]. *)
Definition main_start (flags : Flags) : M App :=
  let app :=
    {| ListenAddress := flag_listen flags; ListenPort := flag_port flags;
       AwairAddress := flag_awair_address flags;
       TimeBetweenChecks := flag_poll_frequency flags;
       TempGauge := None; HumidityGauge := None; Co2Gauge := None; VOCGauge := None;
       PM25Gauge := None; ScoreGauge := None; DewPointGauge := None;
       AbsoluteHumidityGauge := None; Co2EstimateGauge := None;
       Co2EstimateBaselinesGauge := None; VOCBaselineGauge := None;
       VOCH2RawGauge := None; VocEthanolRawGauge := None; Pm10EstimateGauge := None |} in
  app <- initializeGauges app ;;
  emit (EvHandle "/metrics") ;;
  emit (EvGo task_recordMetrics) ;;
  emit (EvGo task_ListenAndServe) ;;
  ret app.

End Poller.

(** ** Vocabulary of the statements *)

(** The name each gauge field of [App] is registered under. *)
Definition metricName (g : gaugeField) : string :=
  match g with
  | GTemp => "awair_climate_temp_c"
  | GHumidity => "awair_climate_relative_humidity"
  | GCo2 => "awair_climate_co2_ppm"
  | GVOC => "awair_climate_voc_ppb"
  | GPM25 => "awair_climate_pm25_ug_m3"
  | GScore => "awair_climate_score"
  | GDewPoint => "awair_climate_dew_point_c"
  | GAbsoluteHumidity => "awair_climate_absolute_humidity"
  | GCo2Estimate => "awair_climate_co2_estimate"
  | GCo2EstimateBaselines => "awair_climate_co2_estimate_baselines"
  | GVOCBaseline => "awair_climate_voc_baseline"
  | GVOCH2Raw => "awair_climate_voc_h2_raw"
  | GVocEthanolRaw => "awair_climate_voc_ethanol_raw"
  | GPm10Estimate => "awair_climate_pm10_estimate"
  end.

Definition gaugeFields : list gaugeField :=
  [GTemp; GHumidity; GCo2; GVOC; GPM25; GScore; GDewPoint; GAbsoluteHumidity;
   GCo2Estimate; GCo2EstimateBaselines; GVOCBaseline; GVOCH2Raw; GVocEthanolRaw;
   GPm10Estimate].

Definition handle (g : gaugeField) (app : App) : Gauge :=
  match g with
  | GTemp => TempGauge app
  | GHumidity => HumidityGauge app
  | GCo2 => Co2Gauge app
  | GVOC => VOCGauge app
  | GPM25 => PM25Gauge app
  | GScore => ScoreGauge app
  | GDewPoint => DewPointGauge app
  | GAbsoluteHumidity => AbsoluteHumidityGauge app
  | GCo2Estimate => Co2EstimateGauge app
  | GCo2EstimateBaselines => Co2EstimateBaselinesGauge app
  | GVOCBaseline => VOCBaselineGauge app
  | GVOCH2Raw => VOCH2RawGauge app
  | GVocEthanolRaw => VocEthanolRawGauge app
  | GPm10Estimate => Pm10EstimateGauge app
  end.

(** [app] after [initializeGauges]: every gauge field holds its gauge. *)
Definition initialized (app : App) : Prop :=
  forall g, handle g app = Some (metricName g).

(** A registry in which none of the fourteen names is taken, and one in
    which all of them are registered. *)
Definition fresh (r : list gauge) : Prop :=
  forall g, prometheus.registered (metricName g) r = false.

Definition serving (r : list gauge) : Prop :=
  forall g, prometheus.registered (metricName g) r = true.

(** How many gauges of a registry carry a name. *)
Definition registrations (n : string) (r : list gauge) : nat :=
  List.length (filter (fun g => String.eqb (fqName g) n) r).

Definition event_eqb_register (n : string) (e : event) : bool :=
  match e with
  | EvRegister m => String.eqb m n
  | _ => false
  end.

Definition isDo (e : event) : bool :=
  match e with EvDo _ => true | _ => false end.

Definition isNewRequest (e : event) : bool :=
  match e with EvNewRequest _ _ => true | _ => false end.

Definition isReadAll (e : event) : bool :=
  match e with EvReadAll => true | _ => false end.

Definition count (p : event -> bool) (es : list event) : nat :=
  List.length (filter p es).

(** The keys of the members of an object; a value of another kind has none. *)
Definition keysOf (v : value) : list string :=
  match v with
  | Object ms => map fst ms
  | _ => []
  end.

(** The four stages at which a poll can fail. *)
Inductive stage : Type := RequestConstruction | Transport | BodyRead | Decode.

Definition errorMessage (st : stage) : string :=
  match st with
  | RequestConstruction => "Error creating request"
  | Transport => "Error getting data from awair"
  | BodyRead => "Error reading response body"
  | Decode => "Error unmarshalling response body"
  end.

(** The request a poll sends. *)
Definition request (app : App) (ctx : Context) : Request :=
  {| req_ctx := context_WithTimeout ctx Second; Method := MethodGet;
     URL := AwairAddress app |}.

Section Vocabulary.

Context `{TimePkg}.

(** The poll meets the failure [e] at stage [st]: the stages before it
    went well and this one gives [e]. *)
Definition failsAt (app : App) (w : World) (ctx : Context) (st : stage) (e : error)
  : Prop :=
  match st with
  | RequestConstruction => url_Parse w (AwairAddress app) = Some e
  | Transport =>
      url_Parse w (AwairAddress app) = None /\
      RoundTrip w (request app ctx) = inr e
  | BodyRead =>
      url_Parse w (AwairAddress app) = None /\
      exists resp, RoundTrip w (request app ctx) = inl resp /\ Body resp = inr e
  | Decode =>
      url_Parse w (AwairAddress app) = None /\
      exists resp body,
        RoundTrip w (request app ctx) = inl resp /\ Body resp = inl body /\
        snd (json.Unmarshal body AwairStats_zero) = Some e
  end.

(** The poll receives the bytes [body]: the request is built, the
    transport answers (with any status code) and the body is read. *)
Definition receives (app : App) (w : World) (ctx : Context) (body : string) : Prop :=
  url_Parse w (AwairAddress app) = None /\
  exists resp, RoundTrip w (request app ctx) = inl resp /\ Body resp = inl body.

(** [body] decodes to the reading [a]. *)
Definition decodes (body : string) (a : AwairStats) : Prop :=
  json.Unmarshal body AwairStats_zero = (a, None).

(** The fourteen gauges show the reading [a]. *)
Definition shows (r : list gauge) (a : AwairStats) : Prop :=
  prometheus.read "awair_climate_temp_c" r = Some (Temp a) /\
  prometheus.read "awair_climate_relative_humidity" r = Some (Humid a) /\
  prometheus.read "awair_climate_co2_ppm" r = Some (float64.of_int (Co2 a)) /\
  prometheus.read "awair_climate_voc_ppb" r = Some (float64.of_int (Voc a)) /\
  prometheus.read "awair_climate_pm25_ug_m3" r = Some (float64.of_int (Pm25 a)) /\
  prometheus.read "awair_climate_score" r = Some (float64.of_int (Score a)) /\
  prometheus.read "awair_climate_dew_point_c" r = Some (DewPoint a) /\
  prometheus.read "awair_climate_absolute_humidity" r = Some (AbsHumid a) /\
  prometheus.read "awair_climate_co2_estimate" r = Some (float64.of_int (Co2Est a)) /\
  prometheus.read "awair_climate_co2_estimate_baselines" r
    = Some (float64.of_int (Co2EstBaseline a)) /\
  prometheus.read "awair_climate_voc_baseline" r = Some (float64.of_int (VocBaseline a)) /\
  prometheus.read "awair_climate_voc_h2_raw" r = Some (float64.of_int (VocH2Raw a)) /\
  prometheus.read "awair_climate_voc_ethanol_raw" r
    = Some (float64.of_int (VocEthanolRaw a)) /\
  prometheus.read "awair_climate_pm10_estimate" r = Some (float64.of_int (Pm10Est a)).

(** The registry after the fourteen [Set] of a successful poll. *)
Definition publish (a : AwairStats) (r : list gauge) : list gauge :=
  prometheus.set "awair_climate_pm10_estimate" (float64.of_int (Pm10Est a))
 (prometheus.set "awair_climate_voc_ethanol_raw" (float64.of_int (VocEthanolRaw a))
 (prometheus.set "awair_climate_voc_h2_raw" (float64.of_int (VocH2Raw a))
 (prometheus.set "awair_climate_voc_baseline" (float64.of_int (VocBaseline a))
 (prometheus.set "awair_climate_co2_estimate_baselines" (float64.of_int (Co2EstBaseline a))
 (prometheus.set "awair_climate_co2_estimate" (float64.of_int (Co2Est a))
 (prometheus.set "awair_climate_absolute_humidity" (AbsHumid a)
 (prometheus.set "awair_climate_dew_point_c" (DewPoint a)
 (prometheus.set "awair_climate_score" (float64.of_int (Score a))
 (prometheus.set "awair_climate_pm25_ug_m3" (float64.of_int (Pm25 a))
 (prometheus.set "awair_climate_voc_ppb" (float64.of_int (Voc a))
 (prometheus.set "awair_climate_co2_ppm" (float64.of_int (Co2 a))
 (prometheus.set "awair_climate_relative_humidity" (Humid a)
 (prometheus.set "awair_climate_temp_c" (Temp a) r))))))))))))).

(** The gauge a numeric field of the reading goes to, and the value the
    gauge takes for a reading. The timestamp goes to no gauge. *)
Definition gaugeOf (f : field) : option gaugeField :=
  match f with
  | FTimestamp => None
  | FScore => Some GScore
  | FDewPoint => Some GDewPoint
  | FTemp => Some GTemp
  | FHumid => Some GHumidity
  | FAbsHumid => Some GAbsoluteHumidity
  | FCo2 => Some GCo2
  | FCo2Est => Some GCo2Estimate
  | FCo2EstBaseline => Some GCo2EstimateBaselines
  | FVoc => Some GVOC
  | FVocBaseline => Some GVOCBaseline
  | FVocH2Raw => Some GVOCH2Raw
  | FVocEthanolRaw => Some GVocEthanolRaw
  | FPm25 => Some GPM25
  | FPm10Est => Some GPm10Estimate
  end.

Definition gaugeValue (g : gaugeField) (a : AwairStats) : float64.t :=
  match g with
  | GTemp => Temp a
  | GHumidity => Humid a
  | GCo2 => float64.of_int (Co2 a)
  | GVOC => float64.of_int (Voc a)
  | GPM25 => float64.of_int (Pm25 a)
  | GScore => float64.of_int (Score a)
  | GDewPoint => DewPoint a
  | GAbsoluteHumidity => AbsHumid a
  | GCo2Estimate => float64.of_int (Co2Est a)
  | GCo2EstimateBaselines => float64.of_int (Co2EstBaseline a)
  | GVOCBaseline => float64.of_int (VocBaseline a)
  | GVOCH2Raw => float64.of_int (VocH2Raw a)
  | GVocEthanolRaw => float64.of_int (VocEthanolRaw a)
  | GPm10Estimate => float64.of_int (Pm10Est a)
  end.

(** Two readings with the same fourteen numeric fields. *)
Definition sameNumbers (a b : AwairStats) : Prop :=
  Score a = Score b /\ DewPoint a = DewPoint b /\ Temp a = Temp b /\
  Humid a = Humid b /\ AbsHumid a = AbsHumid b /\ Co2 a = Co2 b /\
  Co2Est a = Co2Est b /\ Co2EstBaseline a = Co2EstBaseline b /\ Voc a = Voc b /\
  VocBaseline a = VocBaseline b /\ VocH2Raw a = VocH2Raw b /\
  VocEthanolRaw a = VocEthanolRaw b /\ Pm25 a = Pm25 b /\ Pm10Est a = Pm10Est b.

(** What one poll adds to the trace, by the stage it reaches. *)
Definition pollEvents (app : App) (reached : option stage) : list event :=
  let u := AwairAddress app in
  match reached with
  | Some RequestConstruction => [EvWithTimeout Second; EvNewRequest MethodGet u; EvCancel]
  | Some Transport => [EvWithTimeout Second; EvNewRequest MethodGet u; EvDo u; EvCancel]
  | _ => [EvWithTimeout Second; EvNewRequest MethodGet u; EvDo u; EvReadAll;
          EvBodyClose; EvCancel]
  end.

End Vocabulary.

(** ** A time package for the examples

    Date-times of the one shape [2006-01-02T15:04:05Z], fields in range. *)

Record UTC : Type := {
  year : Z; month : Z; day : Z; hour : Z; minute : Z; second : Z
}.

Definition twoDigits (a b : ascii) : option Z :=
  if (isDigit a && isDigit b)%bool then Some (10 * digit_val a + digit_val b) else None.

Definition within (lo hi : Z) (x : option Z) : option Z :=
  match x with
  | Some v => if (lo <=? v) && (v <=? hi) then Some v else None
  | None => None
  end.

Definition parseUTC (s : string) : option UTC :=
  let c (n : nat) : ascii :=
    match String.get n s with
    | Some a => a
    | None => Ascii.zero
    end in
  if (Nat.eqb (String.length s) 20 && Ascii.eqb (c 4%nat) "-" && Ascii.eqb (c 7%nat) "-"
      && Ascii.eqb (c 10%nat) "T" && Ascii.eqb (c 13%nat) ":" && Ascii.eqb (c 16%nat) ":"
      && Ascii.eqb (c 19%nat) "Z")%bool
  then
    match twoDigits (c 0%nat) (c 1%nat), twoDigits (c 2%nat) (c 3%nat),
          within 1 12 (twoDigits (c 5%nat) (c 6%nat)),
          within 1 31 (twoDigits (c 8%nat) (c 9%nat)),
          within 0 23 (twoDigits (c 11%nat) (c 12%nat)),
          within 0 59 (twoDigits (c 14%nat) (c 15%nat)),
          within 0 59 (twoDigits (c 17%nat) (c 18%nat)) with
    | Some ya, Some yb, Some mo, Some d, Some h, Some mi, Some se =>
        Some {| year := 100 * ya + yb; month := mo; day := d; hour := h;
                minute := mi; second := se |}
    | _, _, _, _, _, _, _ => None
    end
  else None.

#[export] Instance UTCTime : TimePkg :=
  {| Time := UTC;
     Time_zero := {| year := 1; month := 1; day := 1; hour := 0; minute := 0; second := 0 |};
     Time_parse := parseUTC |}.

(** ** Further vocabulary: log entries, one gauge at a time, sample inputs *)

Definition errorEntry `{TimePkg} (st : stage) (e : error) : entry :=
  {| Level := ErrorLevel; Message := errorMessage st; Fields := [zap_Error e] |}.

Definition successEntry `{TimePkg} (a : AwairStats) : entry :=
  {| Level := InfoLevel; Message := "Successfully recorded metrics from Awair";
     Fields := [zap_Any "metrics" a] |}.

(** [prometheus.set] on one gauge of the registry. *)
Definition upd (n : string) (x : float64.t) (g : gauge) : gauge :=
  if String.eqb (fqName g) n then {| fqName := fqName g; help := help g; val := x |} else g.

(** [publish] on one gauge of the registry. *)
Definition publish1 `{TimePkg} (a : AwairStats) (g : gauge) : gauge :=
    upd "awair_climate_pm10_estimate" (float64.of_int (Pm10Est a))
   (upd "awair_climate_voc_ethanol_raw" (float64.of_int (VocEthanolRaw a))
   (upd "awair_climate_voc_h2_raw" (float64.of_int (VocH2Raw a))
   (upd "awair_climate_voc_baseline" (float64.of_int (VocBaseline a))
   (upd "awair_climate_co2_estimate_baselines" (float64.of_int (Co2EstBaseline a))
   (upd "awair_climate_co2_estimate" (float64.of_int (Co2Est a))
   (upd "awair_climate_absolute_humidity" (AbsHumid a)
   (upd "awair_climate_dew_point_c" (DewPoint a)
   (upd "awair_climate_score" (float64.of_int (Score a))
   (upd "awair_climate_pm25_ug_m3" (float64.of_int (Pm25 a))
   (upd "awair_climate_voc_ppb" (float64.of_int (Voc a))
   (upd "awair_climate_co2_ppm" (float64.of_int (Co2 a))
   (upd "awair_climate_relative_humidity" (Humid a)
   (upd "awair_climate_temp_c" (Temp a) g))))))))))))).

(** A sensor that answers every request with a status code and a body, a
    sensor that cannot be reached, one whose body breaks off, and an address
    that is no URL. *)
Definition answers (code : Z) (body : string) : World :=
  {| url_Parse := fun _ => None;
     RoundTrip := fun _ => inl {| StatusCode := code; Body := inl body |} |}.

Definition unreachable : World :=
  {| url_Parse := fun _ => None;
     RoundTrip := fun req => inr (url_Error "Get" (URL req) "context deadline exceeded") |}.

Definition breaksOff : World :=
  {| url_Parse := fun _ => None;
     RoundTrip := fun _ => inl {| StatusCode := 200; Body := inr (io_Error "unexpected EOF") |} |}.

Definition noURL : World :=
  {| url_Parse := fun u => Some (url_Error "parse" u "missing protocol scheme");
     RoundTrip := fun _ => inr (io_Error "unused") |}.

Definition background : Context := {| cancelled := false; timeouts := [] |}.

(** The process before [main]: the default registry holds collectors of
    the library already, none of them under a name of the program. *)
Definition processStart : State :=
  {| registry := [{| fqName := "go_goroutines";
                     help := "Number of goroutines that currently exist.";
                     val := float64.of_int 7 |}];
     logs := []; events := [] |}.

Definition started : outcome App := main_start defaultFlags processStart.

(** An [App] with no flag and no gauge set, and a state with nothing in it. *)
Definition blankApp : App :=
  {| ListenAddress := ""; ListenPort := 0; AwairAddress := ""; TimeBetweenChecks := 0;
     TempGauge := None; HumidityGauge := None; Co2Gauge := None; VOCGauge := None;
     PM25Gauge := None; ScoreGauge := None; DewPointGauge := None;
     AbsoluteHumidityGauge := None; Co2EstimateGauge := None;
     Co2EstimateBaselinesGauge := None; VOCBaselineGauge := None;
     VOCH2RawGauge := None; VocEthanolRawGauge := None; Pm10EstimateGauge := None |}.

Definition emptyState : State := {| registry := []; logs := []; events := [] |}.

Definition startedApp : App :=
  match started with
  | Returns app _ => app
  | Panics _ _ => blankApp
  end.

Definition startedState : State :=
  match started with
  | Returns _ s => s
  | Panics _ s => s
  end.

(** The state after a poll, whatever its result. *)
Definition after `{TimePkg} {A : Type} (o : outcome A) : State :=
  match o with
  | Returns _ s => s
  | Panics _ s => s
  end.

(** The gauges [initializeGauges] creates, as it leaves them. *)
Definition zeroGauges : list gauge :=
  registry (after (initializeGauges blankApp emptyState)).

(** The reading a body decodes to. *)
Definition readingOf (body : string) : AwairStats :=
  fst (json.Unmarshal body AwairStats_zero).

(** What a call returned; [None] when it panicked. *)
Definition returned `{TimePkg} {A : Type} (o : outcome A) : option A :=
  match o with
  | Returns a _ => Some a
  | Panics _ _ => None
  end.

Definition payload_scenario : string := dq "{'temp':21.5,'co2':612,'score':88}".
Definition payload_co2_500 : string := dq "{'co2':500}".
Definition payload_upper : string := dq "{'TEMP':21.5}".
Definition payload_null_time : string := dq "{'timestamp':null,'temp':21.5}".
Definition payload_bad_time : string := dq "{'timestamp':'yesterday','temp':21.5}".
Definition payload_timed : string :=
  dq "{'timestamp':'2024-05-01T12:00:00Z','temp':21.5,'co2':612}".
Definition payload_extra : string :=
  dq "{'co2':612,'firmware':{'v':[1,2]},'temp':21.5}".

(** The state after a first poll that read [co2 = 500]. *)
Definition stateAt500 : State :=
  after (getAwairData startedApp (answers 200 payload_co2_500) background startedState).

Definition float_21_5 : float64.t := S754_finite false 6051711999279104 (-48).

(** ** Vocabulary of the further properties *)

Definition isBodyClose (e : event) : bool :=
  match e with EvBodyClose => true | _ => false end.

Definition isWithTimeout (e : event) : bool :=
  match e with EvWithTimeout _ => true | _ => false end.

Definition isTickerStop (e : event) : bool :=
  match e with EvTickerStop => true | _ => false end.

Definition isGo (e : event) : bool :=
  match e with EvGo _ => true | _ => false end.

Definition isHandle (e : event) : bool :=
  match e with EvHandle _ => true | _ => false end.

Definition isRegister (e : event) : bool :=
  match e with EvRegister _ => true | _ => false end.

(** A member of an object that the decoder acts on: its key names a field
    and its value is not [null]. *)
Definition relevant (m : string * value) : bool :=
  match json.fieldOf (fst m), snd m with
  | Some _, Null => false
  | Some _, _ => true
  | None, _ => false
  end.

(** The value a numeric field takes from a number literal, as the gauge
    shows it; [None] when the literal does not fit the type of the field. *)
Definition parsed (f : field) (item : string) : option float64.t :=
  match kind_of f with
  | KInt =>
      match strconv.ParseInt item with
      | Some n => Some (float64.of_int n)
      | None => None
      end
  | KFloat64 => strconv.ParseFloat item
  | KTime => None
  end.

(** A value that a numeric field cannot take: anything but [null] and a
    number literal that fits. *)
Definition misfit (f : field) (v : value) : bool :=
  match kind_of f, v with
  | KTime, _ => false
  | _, Null => false
  | _, Number item =>
      match parsed f item with
      | Some _ => false
      | None => true
      end
  | _, _ => true
  end.

(** A schedule made of ticks only. *)
Definition isTick `{TimePkg} (c : selected) : bool :=
  match c with
  | case_ticker_C _ => true
  | case_ctx_Done => false
  end.

Definition payload_fractional_co2 : string := dq "{'temp':21.5,'co2':612.5}".
Definition payload_other : string := dq "{'humid':40.5,'voc':120}".
Definition payload_unknown : string := dq "{'firmware':'1.2','uptime':[1,2],'co2':null}".
Definition payload_twice : string := dq "{'co2':400,'temp':1.5,'co2':612}".

(** The fourteen gauges of [zeroGauges], written out. *)
Definition zeroGaugeList : list gauge := Eval vm_compute in zeroGauges.

(** The integer a binary64 value equals, when it equals one. *)
Definition float64_to_int (x : float64.t) : option Z :=
  match x with
  | S754_zero _ => Some 0
  | S754_finite s m e =>
      let magnitude :=
        match e with
        | Z0 => Some (Zpos m)
        | Zpos _ => Some (Zpos m * 2 ^ e)
        | Zneg k =>
            if Zpos m mod 2 ^ Zpos k =? 0 then Some (Zpos m / 2 ^ Zpos k) else None
        end in
      match magnitude with
      | Some z => Some (if s then - z else z)
      | None => None
      end
  | _ => None
  end.

Definition payload_plain : string := dq "{'co2':612,'temp':21.5}".
Definition payload_array : string := dq "[21.5,612]".

(** The flags with a poll frequency of zero, and the [App] they give. *)
Definition flagsZeroFrequency : Flags :=
  {| flag_listen := "0.0.0.0"; flag_port := 2112;
     flag_awair_address := "http://localhost/air-data/latest";
     flag_poll_frequency := 0 |}.

Definition stalledApp : App :=
  match main_start flagsZeroFrequency processStart with
  | Returns app _ => app
  | Panics _ _ => blankApp
  end.

(** * Theorems *)

Example ParseInt_612 : strconv.ParseInt "612" = Some 612.
Proof. reflexivity. Qed.

Example ParseInt_fraction : strconv.ParseInt "612.0" = None.
Proof. reflexivity. Qed.

Example ParseInt_range : strconv.ParseInt "9223372036854775808" = None.
Proof. reflexivity. Qed.

Example ParseFloat_21_5 :
  strconv.ParseFloat "21.5" = Some (S754_finite false 6051711999279104 (-48)).
Proof. vm_compute. reflexivity. Qed.

Example ParseFloat_tenth :
  strconv.ParseFloat "0.1" = Some (S754_finite false 7205759403792794 (-56)).
Proof. vm_compute. reflexivity. Qed.

Example ParseFloat_range : strconv.ParseFloat "1e400" = None.
Proof. vm_compute. reflexivity. Qed.

Example of_int_612 : float64.of_int 612 = S754_finite false 5383208929591296 (-43).
Proof. vm_compute. reflexivity. Qed.
(** ** The registry *)

Lemma registered_set n m x r :
  prometheus.registered n (prometheus.set m x r) = prometheus.registered n r.
Proof.
  unfold prometheus.registered, prometheus.set.
  induction r as [|g r IH]; simpl; [reflexivity|].
  rewrite IH. destruct (String.eqb (fqName g) m); reflexivity.
Qed.

Lemma read_set_same n x r :
  prometheus.registered n r = true ->
  prometheus.read n (prometheus.set n x r) = Some x.
Proof.
  unfold prometheus.registered, prometheus.read, prometheus.set.
  induction r as [|g r IH]; simpl; [discriminate|].
  destruct (String.eqb (fqName g) n) eqn:E; simpl.
  - rewrite E. reflexivity.
  - rewrite E. exact IH.
Qed.

Lemma read_set_other n m x r :
  n <> m ->
  prometheus.read n (prometheus.set m x r) = prometheus.read n r.
Proof.
  intros Hnm. unfold prometheus.read, prometheus.set.
  induction r as [|g r IH]; simpl; [reflexivity|].
  destruct (String.eqb (fqName g) m) eqn:E; simpl.
  - apply String.eqb_eq in E.
    destruct (String.eqb (fqName g) n) eqn:E'.
    + apply String.eqb_eq in E'. congruence.
    + exact IH.
  - destruct (String.eqb (fqName g) n); [reflexivity | exact IH].
Qed.

Lemma registered_read n r :
  prometheus.registered n r = true -> exists x, prometheus.read n r = Some x.
Proof.
  unfold prometheus.registered, prometheus.read.
  induction r as [|g r IH]; simpl; [discriminate|].
  destruct (String.eqb (fqName g) n); simpl; eauto.
Qed.

Lemma Gather_set_length m x r :
  List.length (prometheus.set m x r) = List.length r.
Proof. apply length_map. Qed.

Section Registry.

Context `{TimePkg}.

Lemma serving_publish a r : serving r -> serving (publish a r).
Proof.
intros Hs g. unfold publish. rewrite !registered_set. apply Hs.
Qed.

Ltac names_differ := let E := fresh in intro E; discriminate E.

Lemma shows_publish a r : serving r -> shows (publish a r) a.
Proof.
intros Hs. unfold shows, publish.
repeat split;
  repeat (rewrite read_set_other by names_differ);
  (rewrite read_set_same; [reflexivity|]);
  rewrite ?registered_set;
  first [ apply (Hs GTemp) | apply (Hs GHumidity) | apply (Hs GCo2) | apply (Hs GVOC)
        | apply (Hs GPM25) | apply (Hs GScore) | apply (Hs GDewPoint)
        | apply (Hs GAbsoluteHumidity) | apply (Hs GCo2Estimate)
        | apply (Hs GCo2EstimateBaselines) | apply (Hs GVOCBaseline)
        | apply (Hs GVOCH2Raw) | apply (Hs GVocEthanolRaw) | apply (Hs GPm10Estimate) ].
Qed.

Lemma app_assoc1 {A} (l : list A) x y : ((l ++ [x]) ++ y = l ++ x :: y)%list.
Proof. rewrite <- app_assoc. reflexivity. Qed.

Lemma poll_fails app w ctx s st e :
failsAt app w ctx st e ->
getAwairData app w ctx s =
Returns (Some e)
  {| registry := registry s;
     logs := logs s ++ [errorEntry st e];
     events := events s ++ pollEvents app (Some st) |}.
Proof.
destruct st; simpl.
- intros Hu. cbv [getAwairData defer bind emit ret http_NewRequestWithContext
                  Logger_Error log]. simpl. rewrite Hu. simpl.
  rewrite !app_assoc1. reflexivity.
- intros [Hu Hr]. cbv [getAwairData defer bind emit ret http_NewRequestWithContext
                  http_DefaultClient_Do Logger_Error log]. simpl. rewrite Hu. simpl.
  fold (request app ctx). rewrite Hr. simpl.
  rewrite !app_assoc1. reflexivity.
- intros [Hu (resp & Hr & Hb)].
  cbv [getAwairData defer bind emit ret http_NewRequestWithContext
                  http_DefaultClient_Do ioutil_ReadAll Logger_Error log]. simpl. rewrite Hu. simpl.
  fold (request app ctx). rewrite Hr. simpl. rewrite Hb. simpl.
  rewrite !app_assoc1. reflexivity.
- intros [Hu (resp & body & Hr & Hb & Hd)].
  cbv [getAwairData defer bind emit ret http_NewRequestWithContext
                  http_DefaultClient_Do ioutil_ReadAll Logger_Error log]. simpl. rewrite Hu. simpl.
  fold (request app ctx). rewrite Hr. simpl. rewrite Hb. simpl.
  destruct (json.Unmarshal body AwairStats_zero) as [a' oe]. simpl in Hd. subst oe. simpl.
  rewrite !app_assoc1. reflexivity.
Qed.

Lemma poll_succeeds app w ctx s body a :
initialized app -> receives app w ctx body -> decodes body a ->
getAwairData app w ctx s =
Returns None
  {| registry := publish a (registry s);
     logs := logs s ++ [successEntry a];
     events := events s ++ pollEvents app None |}.
Proof.
intros Hi [Hu (resp & Hr & Hb)] Hd.
cbv [getAwairData defer bind emit ret http_NewRequestWithContext
                  http_DefaultClient_Do ioutil_ReadAll Logger_Error Logger_Info log]. simpl. rewrite Hu. simpl.
fold (request app ctx). rewrite Hr. simpl. rewrite Hb. simpl.
unfold decodes in Hd. rewrite Hd.
pose proof (Hi GTemp) as H1; pose proof (Hi GHumidity) as H2; pose proof (Hi GCo2) as H3;
pose proof (Hi GVOC) as H4; pose proof (Hi GPM25) as H5; pose proof (Hi GScore) as H6;
pose proof (Hi GDewPoint) as H7; pose proof (Hi GAbsoluteHumidity) as H8;
pose proof (Hi GCo2Estimate) as H9; pose proof (Hi GCo2EstimateBaselines) as H10;
pose proof (Hi GVOCBaseline) as H11; pose proof (Hi GVOCH2Raw) as H12;
pose proof (Hi GVocEthanolRaw) as H13; pose proof (Hi GPm10Estimate) as H14.
simpl in *.
rewrite H1, H2, H3, H4, H5, H6, H7, H8, H9, H10, H11, H12, H13, H14.
cbv [Gauge_Set registry logs events].
rewrite !app_assoc1. reflexivity.
Qed.

Lemma poll_cases app w ctx :
(exists st e, failsAt app w ctx st e) \/
(exists body a, receives app w ctx body /\ decodes body a).
Proof.
destruct (url_Parse w (AwairAddress app)) as [e|] eqn:Hu.
{ left. exists RequestConstruction, e. exact Hu. }
destruct (RoundTrip w (request app ctx)) as [resp|e] eqn:Hr.
2:{ left. exists Transport, e. split; assumption. }
destruct (Body resp) as [body|e] eqn:Hb.
2:{ left. exists BodyRead, e. split; [assumption|]. exists resp. split; assumption. }
destruct (json.Unmarshal body AwairStats_zero) as [a [e|]] eqn:Hd.
- left. exists Decode, e. split; [assumption|]. exists resp, body.
  rewrite Hd. repeat split; assumption.
- right. exists body, a. split; [|exact Hd]. split; [assumption|].
  exists resp. split; assumption.
Qed.
End Registry.

Lemma registered_app n r1 r2 :
  prometheus.registered n (r1 ++ r2)%list
  = (prometheus.registered n r1 || prometheus.registered n r2)%bool.
Proof. apply existsb_app. Qed.

Lemma read_app_fresh n r1 r2 :
  prometheus.registered n r1 = false ->
  prometheus.read n (r1 ++ r2)%list = prometheus.read n r2.
Proof.
  unfold prometheus.registered, prometheus.read.
  induction r1 as [|g r1 IH]; simpl; [reflexivity|].
  destruct (String.eqb (fqName g) n); simpl; [discriminate | exact IH].
Qed.

Lemma registrations_app n r1 r2 :
  registrations n (r1 ++ r2)%list = (registrations n r1 + registrations n r2)%nat.
Proof. unfold registrations. rewrite filter_app, length_app. reflexivity. Qed.

Lemma registrations_fresh n r :
  prometheus.registered n r = false -> registrations n r = 0%nat.
Proof.
  unfold prometheus.registered, registrations.
  induction r as [|g r IH]; simpl; [reflexivity|].
  destruct (String.eqb (fqName g) n); simpl; [discriminate | exact IH].
Qed.

Section Registration.

Context `{TimePkg}.

Lemma NewGauge_fresh opts s :
let n := prometheus.BuildFQName (Namespace opts) (Subsystem opts) (Name opts) in
prometheus.IsValidMetricName n = true ->
prometheus.registered n (registry s) = false ->
promauto_NewGauge opts s =
Returns (Some n)
  {| registry := (registry s ++ [{| fqName := n; help := Help opts; val := float64.zero |}])%list;
     logs := logs s;
     events := (events s ++ [EvRegister n])%list |}.
Proof.
intros n Hv Hf. unfold promauto_NewGauge. fold n. rewrite Hv, Hf. reflexivity.
Qed.

Lemma NewGauge_taken opts s :
let n := prometheus.BuildFQName (Namespace opts) (Subsystem opts) (Name opts) in
prometheus.registered n (registry s) = true ->
exists v, promauto_NewGauge opts s = Panics v s.
Proof.
intros n Hr. unfold promauto_NewGauge. fold n. rewrite Hr.
destruct (prometheus.IsValidMetricName n); simpl; eauto.
Qed.

Lemma registered_extend n r gs :
prometheus.registered n r = false -> prometheus.registered n gs = false ->
prometheus.registered n (r ++ gs)%list = false.
Proof. intros Hr Hg. rewrite registered_app, Hr, Hg. reflexivity. Qed.

Ltac by_fresh Hf :=
  first [ exact (Hf GTemp) | exact (Hf GHumidity) | exact (Hf GCo2) | exact (Hf GVOC)
        | exact (Hf GPM25) | exact (Hf GScore) | exact (Hf GDewPoint)
        | exact (Hf GAbsoluteHumidity) | exact (Hf GCo2Estimate)
        | exact (Hf GCo2EstimateBaselines) | exact (Hf GVOCBaseline)
        | exact (Hf GVOCH2Raw) | exact (Hf GVocEthanolRaw) | exact (Hf GPm10Estimate) ].

Ltac new_gauge Hf :=
  rewrite NewGauge_fresh;
  [ cbn [registry logs events Help]
  | reflexivity
  | cbn [registry]; rewrite <- ?app_assoc;
    first [ by_fresh Hf | apply registered_extend; [by_fresh Hf | reflexivity] ] ].

Lemma initializeGauges_run app s :
fresh (registry s) ->
exists app',
  initializeGauges app s =
  Returns app' {| registry := (registry s ++ zeroGauges)%list; logs := logs s;
                  events := (events s ++ map EvRegister (map metricName gaugeFields))%list |}
  /\ initialized app'
  /\ ListenAddress app' = ListenAddress app /\ ListenPort app' = ListenPort app
  /\ AwairAddress app' = AwairAddress app
  /\ TimeBetweenChecks app' = TimeBetweenChecks app.
Proof.
intros Hf. eexists. split.
- unfold initializeGauges.
  do 14 (unfold bind at 1; new_gauge Hf).
  unfold ret. rewrite <- !app_assoc. cbn [List.app]. reflexivity.
- split; [intros []; reflexivity|].
  repeat split.
Qed.
End Registration.

(** ** Publishing twice *)

Lemma set_map n x r : prometheus.set n x r = map (upd n x) r.
Proof. reflexivity. Qed.

Lemma upd_other n x g : fqName g <> n -> upd n x g = g.
Proof.
  intros Hn. unfold upd. destruct (String.eqb_spec (fqName g) n); [contradiction|reflexivity].
Qed.

Section Publish.

Context `{TimePkg}.

Lemma publish_map a r : publish a r = map (publish1 a) r.
Proof.
unfold publish, publish1. rewrite !set_map, !map_map. reflexivity.
Qed.

Ltac by_name g :=
  match goal with
  | |- context [upd ?n _ g] =>
      let E := fresh "E" in
      destruct (String.eqb_spec (fqName g) n) as [E|E];
      [ destruct g as [gn gh gv]; simpl in E; subst gn; reflexivity
      | rewrite (upd_other n _ g E) ]
  end.

Lemma publish1_idem a g : publish1 a (publish1 a g) = publish1 a g.
Proof.
unfold publish1.
do 14 by_name g.
repeat rewrite (upd_other _ _ g) by assumption.
reflexivity.
Qed.

Lemma publish_idem a r : publish a (publish a r) = publish a r.
Proof.
rewrite !publish_map, map_map. apply map_ext. intros g. apply publish1_idem.
Qed.

Lemma publish_sameNumbers a b r : sameNumbers a b -> publish a r = publish b r.
Proof.
intros (H1 & H2 & H3 & H4 & H5 & H6 & H7 & H8 & H9 & H10 & H11 & H12 & H13 & H14).
unfold publish. congruence.
Qed.

Lemma publish_setTime t a r : publish (json.setTime t a) r = publish a r.
Proof. reflexivity. Qed.
End Publish.

(** ** Decoding *)

Lemma fieldOf_fold k f :
  json.fieldOf k = Some f -> json.foldName (tag f) = json.foldName k.
Proof.
  unfold json.fieldOf, fields. cbn [find].
  repeat match goal with
  | |- context [String.eqb (tag ?f0) k] =>
      let E := fresh "E" in
      destruct (String.eqb_spec (tag f0) k) as [E|E];
      [ intros [= <-]; rewrite <- E; reflexivity | ]
  end.
  repeat match goal with
  | |- context [String.eqb (json.foldName (tag ?f0)) (json.foldName k)] =>
      let E := fresh "E" in
      destruct (String.eqb_spec (json.foldName (tag f0)) (json.foldName k)) as [E|E];
      [ intros [= <-]; exact E | ]
  end.
  discriminate.
Qed.

Lemma fieldOf_tag f : json.fieldOf (tag f) = Some f.
Proof. destruct f; reflexivity. Qed.

Section Decoding.

Context `{TimePkg}.

Lemma gaugeValue_setInt f f' g n a :
gaugeOf f = Some g -> f' <> f ->
gaugeValue g (json.setInt f' n a) = gaugeValue g a.
Proof.
intros Hg Hne. destruct f; inversion Hg; subst g; destruct f'; try reflexivity; congruence.
Qed.

Lemma gaugeValue_setFloat f f' g x a :
gaugeOf f = Some g -> f' <> f ->
gaugeValue g (json.setFloat f' x a) = gaugeValue g a.
Proof.
intros Hg Hne. destruct f; inversion Hg; subst g; destruct f'; try reflexivity; congruence.
Qed.

Lemma gaugeValue_setTime g t a : gaugeValue g (json.setTime t a) = gaugeValue g a.
Proof. destruct g; reflexivity. Qed.

Lemma storeField_other f f' g v d d' :
gaugeOf f = Some g -> f' <> f ->
json.storeField f' v d = inl d' ->
gaugeValue g (json.target d') = gaugeValue g (json.target d).
Proof.
intros Hg Hne. unfold json.storeField.
destruct (kind_of f').
- destruct (json.Time_UnmarshalJSON v (Timestamp (json.target d))) as [t [e|]];
    [discriminate|]. intros [= <-]. simpl. apply gaugeValue_setTime.
- destruct v; try (intros [= <-]; reflexivity).
  destruct (strconv.ParseInt item); intros [= <-]; simpl;
    [eapply gaugeValue_setInt; eassumption | reflexivity].
- destruct v; try (intros [= <-]; reflexivity).
  destruct (strconv.ParseFloat item); intros [= <-]; simpl;
    [eapply gaugeValue_setFloat; eassumption | reflexivity].
Qed.

Lemma object_absent f g ms : forall d d',
gaugeOf f = Some g ->
(forall k, In k (map fst ms) -> json.foldName k <> json.foldName (tag f)) ->
json.object ms d = inl d' ->
gaugeValue g (json.target d') = gaugeValue g (json.target d).
Proof.
induction ms as [|[k v] ms IH]; intros d d' Hg Habs; simpl.
- intros [= <-]. reflexivity.
- destruct (json.fieldOf k) as [f'|] eqn:Hk.
  + destruct (json.storeField f' v d) as [d1|stop] eqn:Hs; [|discriminate].
    intros Hobj.
    rewrite (IH d1 d' Hg); [| intros k' Hin; apply Habs; right; exact Hin | exact Hobj].
    eapply storeField_other; [exact Hg| |exact Hs].
    intros ->. apply fieldOf_fold in Hk.
    apply (Habs k); [left; reflexivity | symmetry; exact Hk].
  + apply IH; [exact Hg|]. intros k' Hin. apply Habs. right. exact Hin.
Qed.

Lemma gaugeValue_zero g : gaugeValue g AwairStats_zero = float64.zero.
Proof. destruct g; reflexivity. Qed.

Lemma decodes_absent body v a f g :
scanner.scan body = Some v ->
decodes body a ->
gaugeOf f = Some g ->
(forall k, In k (keysOf v) -> json.foldName k <> json.foldName (tag f)) ->
gaugeValue g a = float64.zero.
Proof.
intros Hscan Hdec Hg Habs. unfold decodes, json.Unmarshal in Hdec. rewrite Hscan in Hdec.
destruct v; try discriminate.
- injection Hdec as <-. apply gaugeValue_zero.
- destruct (json.object members {| json.target := AwairStats_zero; json.savedError := None |})
    as [d|[a' e]] eqn:Hobj; [|discriminate].
  injection Hdec as <- Hsaved.
  rewrite (object_absent f g members _ d Hg Habs Hobj). apply gaugeValue_zero.
Qed.

(** A timestamp that is neither [null] nor a string that parses stops the
  decoding with an error. *)
Lemma storeField_timestamp v d :
v <> Null -> (forall raw, v = Str raw -> Time_parse raw = None) ->
exists stop, json.storeField FTimestamp v d = inr stop.
Proof.
intros Hnull Hstr. unfold json.storeField. simpl.
destruct v; simpl; try (eexists; reflexivity).
- contradiction.
- rewrite (Hstr raw eq_refl). eexists; reflexivity.
Qed.

Lemma object_timestamp ms v :
In ("timestamp", v) ms ->
v <> Null -> (forall raw, v = Str raw -> Time_parse raw = None) ->
forall d, exists stop, json.object ms d = inr stop.
Proof.
intros Hin Hnull Hstr.
induction ms as [|[k v'] ms IH]; [contradiction|].
intros d. simpl.
destruct Hin as [E|Hin].
- injection E as -> ->. change (json.fieldOf "timestamp") with (Some FTimestamp).
  destruct (storeField_timestamp v d Hnull Hstr) as [stop ->]. eauto.
- destruct (json.fieldOf k) as [f|]; [|apply IH; assumption].
  destruct (json.storeField f v' d) as [d1|stop]; [apply IH; assumption | eauto].
Qed.

Lemma Unmarshal_timestamp body ms v a0 :
scanner.scan body = Some (Object ms) ->
In ("timestamp", v) ms ->
v <> Null -> (forall raw, v = Str raw -> Time_parse raw = None) ->
exists e, snd (json.Unmarshal body a0) = Some e.
Proof.
intros Hscan Hin Hnull Hstr. unfold json.Unmarshal. rewrite Hscan.
destruct (object_timestamp ms v Hin Hnull Hstr {| json.target := a0; json.savedError := None |})
  as [[a' e] ->].
exists e. reflexivity.
Qed.
End Decoding.

(** ** The poll loop and the start of [main] *)

Section Loop.

Context `{TimePkg}.

Lemma failsAt_unique app w ctx st st' e e' :
  failsAt app w ctx st e -> failsAt app w ctx st' e' -> st = st' /\ e = e'.
Proof.
  destruct st, st'; simpl; intros;
    repeat match goal with
           | H : _ /\ _ |- _ => destruct H
           | H : exists _, _ |- _ => destruct H
           end;
    first [ split; congruence | congruence ].
Qed.

Lemma fails_or_decodes app w ctx st e body a :
  failsAt app w ctx st e -> receives app w ctx body -> decodes body a -> False.
Proof.
  intros Hf [Hu (resp & Hr & Hb)] Hd. unfold decodes in Hd.
  destruct st; simpl in Hf.
  - congruence.
  - destruct Hf; congruence.
  - destruct Hf as [_ (resp' & Hr' & Hb')].
    assert (resp' = resp) by congruence; subst. congruence.
  - destruct Hf as [_ (resp' & body' & Hr' & Hb' & Hd')].
    assert (resp' = resp) by congruence; subst.
    assert (body' = body) by congruence; subst.
    rewrite Hd in Hd'. discriminate.
Qed.

Lemma errorMessage_inj st st' : errorMessage st = errorMessage st' -> st = st'.
Proof. destruct st, st'; simpl; intros E; try reflexivity; discriminate E. Qed.

Lemma read_Gather n x r :
  prometheus.read n r = Some x -> In (n, x) (prometheus.Gather r).
Proof.
  unfold prometheus.read, prometheus.Gather.
  induction r as [|g r IH]; simpl; [discriminate|].
  destruct (String.eqb_spec (fqName g) n) as [E|E].
  - intros [= <-]. left. rewrite E. reflexivity.
  - intros Hr. right. apply IH. exact Hr.
Qed.

(** A run of the loop in which every poll fails returns or waits with
    the registry as it was. *)
Lemma loop_failing app ctx sched :
  (forall w, In (case_ticker_C w) sched -> exists st e, failsAt app w ctx st e) ->
  forall s, exists le s', loop app ctx sched s = Returns le s' /\ registry s' = registry s.
Proof.
  induction sched as [|[w|] sched IH]; intros Hall s; simpl.
  - eauto.
  - destruct (Hall w (or_introl eq_refl)) as (st & e & Hf).
    unfold bind. rewrite (poll_fails app w ctx s st e Hf).
    destruct (IH (fun w' Hin => Hall w' (or_intror Hin))
                 {| registry := registry s; logs := (logs s ++ [errorEntry st e])%list;
                    events := (events s ++ pollEvents app (Some st))%list |})
      as (le & s' & -> & Hreg).
    eauto.
  - eauto.
Qed.

(** The loop returns as soon as its [select] receives the end of the
    context, and polls no more. *)
Lemma loop_returns_on_Done app ctx rest s :
  loop app ctx (case_ctx_Done :: rest) s = Returns Returned s.
Proof. reflexivity. Qed.

(** Every poll of the loop runs under a timeout of one second set on the
    context of the loop. *)
Lemma request_timeout app ctx :
  req_ctx (request app ctx) = context_WithTimeout ctx Second
  /\ timeouts (req_ctx (request app ctx)) = Second :: timeouts ctx.
Proof. split; reflexivity. Qed.

Lemma main_start_run flags s0 :
  fresh (registry s0) ->
  exists app,
    main_start flags s0 =
    Returns app
      {| registry := (registry s0 ++ zeroGauges)%list; logs := logs s0;
         events := (events s0 ++
                    (map EvRegister (map metricName gaugeFields) ++
                     [EvHandle "/metrics"; EvGo task_recordMetrics])
                    ++ [EvGo task_ListenAndServe])%list |}
    /\ initialized app
    /\ AwairAddress app = flag_awair_address flags
    /\ TimeBetweenChecks app = flag_poll_frequency flags.
Proof.
  intros Hf. unfold main_start.
  match goal with
  | |- context [initializeGauges ?a] =>
      destruct (initializeGauges_run a s0 Hf) as (app & Hrun & Hi & _ & _ & Ha & Ht)
  end.
  exists app. split; [|auto].
  unfold bind at 1. rewrite Hrun. cbv [bind emit ret]. cbn [registry logs events].
  rewrite <- !app_assoc. reflexivity.
Qed.

(** Once the gauges are registered, registering them again panics: the
    registry refuses a second gauge under a name. *)
Lemma initializeGauges_again app s :
  serving (registry s) -> exists v, initializeGauges app s = Panics v s.
Proof.
  intros Hs. unfold initializeGauges. unfold bind at 1.
  match goal with
  | |- context [promauto_NewGauge ?o s] =>
      destruct (NewGauge_taken o s (Hs GTemp)) as [v ->]
  end.
  eauto.
Qed.

Lemma serving_after_start r0 : serving (r0 ++ zeroGauges)%list.
Proof.
  intros g. rewrite registered_app.
  replace (prometheus.registered (metricName g) zeroGauges) with true
    by (destruct g; reflexivity).
  apply orb_true_r.
Qed.

Lemma poll_keeps_serving app w ctx s :
  initialized app -> serving (registry s) ->
  serving (registry (after (getAwairData app w ctx s))).
Proof.
  intros Hi Hs.
  destruct (poll_cases app w ctx) as [(st & e & Hf)|(body & a & Hr & Hd)].
  - rewrite (poll_fails app w ctx s st e Hf). exact Hs.
  - rewrite (poll_succeeds app w ctx s body a Hi Hr Hd). simpl.
    apply serving_publish. exact Hs.
Qed.

End Loop.

(** ** The claims *)

Section Claims.

Context `{TimePkg}.

(** C1. Whenever the poll receives a body that decodes, the poll returns
    no error and each of the fourteen gauges then reads the field of the
    decoded reading that belongs to it: [temp] in [temp_c], [humid] in
    [relative_humidity], [co2] in [co2_ppm], and so on as [shows] lists
    them, an integer field as the [float64] of its value. *)
Theorem poll_publishes_reading app w ctx s body a :
  initialized app -> serving (registry s) ->
  receives app w ctx body -> decodes body a ->
  exists s',
    getAwairData app w ctx s = Returns None s' /\ shows (registry s') a.
Proof.
  intros Hi Hs Hr Hd. eexists. split.
  - apply (poll_succeeds app w ctx s body a Hi Hr Hd).
  - simpl. apply shows_publish. exact Hs.
Qed.

(** C2. A poll that fails at any of the four stages (request
    construction, transport, body read, JSON decode) returns the error
    and leaves the registry exactly as it was: every gauge reads what it
    read before. *)
Theorem failed_poll_keeps_gauges app w ctx s st e :
  failsAt app w ctx st e ->
  exists s',
    getAwairData app w ctx s = Returns (Some e) s' /\
    registry s' = registry s /\
    forall n, prometheus.read n (registry s') = prometheus.read n (registry s).
Proof.
  intros Hf. eexists. split; [apply (poll_fails app w ctx s st e Hf)|].
  split; reflexivity.
Qed.

(** C3, as amended. When no key of the decoded object is the name of a
    numeric field, compared as the decoder compares names (exactly, or
    else without regard to case), a successful poll sets the gauge of
    that field to zero. *)
Theorem absent_field_reads_zero app w ctx s body v a f g :
  initialized app -> serving (registry s) ->
  receives app w ctx body -> decodes body a ->
  scanner.scan body = Some v ->
  gaugeOf f = Some g ->
  (forall k, In k (keysOf v) -> json.foldName k <> json.foldName (tag f)) ->
  exists s',
    getAwairData app w ctx s = Returns None s' /\
    prometheus.read (metricName g) (registry s') = Some float64.zero.
Proof.
  intros Hi Hs Hr Hd Hscan Hg Habs.
  destruct (poll_publishes_reading app w ctx s body a Hi Hs Hr Hd) as (s' & Hrun & Hshow).
  exists s'. split; [exact Hrun|].
  rewrite <- (decodes_absent body v a f g Hscan Hd Hg Habs).
  destruct Hshow as (H1 & H2 & H3 & H4 & H5 & H6 & H7 & H8 & H9 & H10 & H11 & H12 & H13 & H14).
  destruct g; assumption.
Qed.

(** C4. The status code of the response plays no part: a response with
    any status code whose body decodes makes the poll a success that sets
    the fourteen gauges from the decoded reading, and the state after the
    poll is the same for every other status code. *)
Theorem status_code_ignored app w ctx s code body a :
  initialized app -> serving (registry s) ->
  url_Parse w (AwairAddress app) = None ->
  RoundTrip w (request app ctx) = inl {| StatusCode := code; Body := inl body |} ->
  decodes body a ->
  exists s',
    getAwairData app w ctx s = Returns None s' /\
    shows (registry s') a /\
    forall w' code',
      url_Parse w' (AwairAddress app) = None ->
      RoundTrip w' (request app ctx) = inl {| StatusCode := code'; Body := inl body |} ->
      getAwairData app w' ctx s = Returns None s'.
Proof.
  intros Hi Hs Hu Hr Hd.
  assert (Hrec : receives app w ctx body).
  { split; [exact Hu|]. eexists. split; [exact Hr|reflexivity]. }
  eexists. split; [apply (poll_succeeds app w ctx s body a Hi Hrec Hd)|].
  split; [simpl; apply shows_publish; exact Hs|].
  intros w' code' Hu' Hr'.
  apply (poll_succeeds app w' ctx s body a Hi); [|exact Hd].
  split; [exact Hu'|]. eexists. split; [exact Hr'|reflexivity].
Qed.

(** C5. A poll returns. It returns an error exactly when one of the four
    stages fails, and then the error is the one of that stage, logged once
    under the message of that stage (the four messages differ); it returns
    no error exactly when a body is received and decodes. Nothing is tried
    twice: a poll builds at most one request, sends at most one and reads
    at most one body. *)
Theorem poll_errors_by_stage app w ctx s :
  initialized app ->
  exists r s',
    getAwairData app w ctx s = Returns r s' /\
    (forall e, r = Some e <-> exists st, failsAt app w ctx st e) /\
    (r = None <-> exists body a, receives app w ctx body /\ decodes body a) /\
    (forall e, r = Some e ->
       exists st, failsAt app w ctx st e /\
                  logs s' = (logs s ++ [errorEntry st e])%list) /\
    (forall st st', errorMessage st = errorMessage st' -> st = st') /\
    (exists t, events s' = (events s ++ t)%list /\
               (count isNewRequest t <= 1)%nat /\ (count isDo t <= 1)%nat /\
               (count isReadAll t <= 1)%nat).
Proof.
  intros Hi.
  destruct (poll_cases app w ctx) as [(st & e & Hf)|(body & a & Hr & Hd)].
  - do 2 eexists. split; [apply (poll_fails app w ctx s st e Hf)|].
    split; [|split; [|split; [|split]]].
    + intros e'. split.
      * intros [= <-]. eauto.
      * intros (st' & Hf'). destruct (failsAt_unique _ _ _ _ _ _ _ Hf Hf') as [_ ->].
        reflexivity.
    + split; [discriminate|].
      intros (body & a & Hr & Hd). exfalso. eapply fails_or_decodes; eassumption.
    + intros e' [= <-]. exists st. split; [exact Hf|reflexivity].
    + apply errorMessage_inj.
    + eexists. split; [reflexivity|]. destruct st; unfold count; simpl; repeat split; lia.
  - do 2 eexists. split; [apply (poll_succeeds app w ctx s body a Hi Hr Hd)|].
    split; [|split; [|split; [|split]]].
    + intros e. split; [discriminate|].
      intros (st & Hf). exfalso. eapply fails_or_decodes; eassumption.
    + split; [eauto|reflexivity].
    + discriminate.
    + apply errorMessage_inj.
    + eexists. split; [reflexivity|]. unfold count. simpl. repeat split; lia.
Qed.

(** C6. Two successful polls in a row that receive the same body leave
    the registry after the second as it was after the first. *)
Theorem repeated_poll_idempotent app w1 w2 ctx1 ctx2 s body a :
  initialized app ->
  receives app w1 ctx1 body -> receives app w2 ctx2 body -> decodes body a ->
  exists s1 s2,
    getAwairData app w1 ctx1 s = Returns None s1 /\
    getAwairData app w2 ctx2 s1 = Returns None s2 /\
    registry s2 = registry s1.
Proof.
  intros Hi Hr1 Hr2 Hd. do 2 eexists.
  split; [apply (poll_succeeds app w1 ctx1 s body a Hi Hr1 Hd)|].
  split; [apply (poll_succeeds app w2 ctx2 _ body a Hi Hr2 Hd)|].
  simpl. apply publish_idem.
Qed.

(** C7. From a process whose registry holds none of the fourteen names,
    the start of [main] registers each of them exactly once, all of that
    before the task of the metrics server is started; every gauge then
    reads zero, and as long as no poll succeeds a scrape shows the
    fourteen names at zero. *)
Theorem gauges_registered_once_at_start flags s0 :
  fresh (registry s0) ->
  exists app s,
    main_start flags s0 = Returns app s /\
    initialized app /\
    (forall g, registrations (metricName g) (registry s) = 1%nat) /\
    (exists before,
        events s = (events s0 ++ before ++ [EvGo task_ListenAndServe])%list /\
        forall g, count (event_eqb_register (metricName g)) before = 1%nat) /\
    (forall g, In (metricName g, float64.zero) (prometheus.Gather (registry s))) /\
    (forall ctx sched,
        (forall w, In (case_ticker_C w) sched -> exists st e, failsAt app w ctx st e) ->
        exists le s',
          loop app ctx sched s = Returns le s' /\
          forall g, In (metricName g, float64.zero) (prometheus.Gather (registry s'))).
Proof.
  intros Hf.
  destruct (main_start_run flags s0 Hf) as (app & Hrun & Hi & _).
  assert (Hzero : forall g,
             In (metricName g, float64.zero)
                (prometheus.Gather (registry s0 ++ zeroGauges)%list)).
  { intros g. apply read_Gather. rewrite (read_app_fresh _ _ _ (Hf g)).
    destruct g; reflexivity. }
  do 2 eexists. split; [exact Hrun|].
  split; [exact Hi|]. cbn [registry events].
  split.
  { intros g. rewrite registrations_app, (registrations_fresh _ _ (Hf g)).
    destruct g; reflexivity. }
  split.
  { eexists. split; [reflexivity|]. intros []; reflexivity. }
  split; [exact Hzero|].
  intros ctx sched Hall.
  match goal with
  | |- context [loop app ctx sched ?s] =>
      destruct (loop_failing app ctx sched Hall s) as (le & s' & Hl & Hreg)
  end.
  exists le, s'. split; [exact Hl|]. rewrite Hreg. exact Hzero.
Qed.

(** C9. Two bodies that decode to readings with the same fourteen numeric
    fields leave the same registry behind, whatever their timestamps and
    whatever else they contain; and the registry a reading gives does not
    change with its timestamp. *)
Theorem gauges_depend_on_numbers_only app w1 w2 ctx1 ctx2 s b1 b2 a1 a2 :
  initialized app ->
  receives app w1 ctx1 b1 -> decodes b1 a1 ->
  receives app w2 ctx2 b2 -> decodes b2 a2 ->
  sameNumbers a1 a2 ->
  exists s1 s2,
    getAwairData app w1 ctx1 s = Returns None s1 /\
    getAwairData app w2 ctx2 s = Returns None s2 /\
    registry s1 = registry s2 /\
    forall t, publish (json.setTime t a1) (registry s) = registry s1.
Proof.
  intros Hi Hr1 Hd1 Hr2 Hd2 Hsame. do 2 eexists.
  split; [apply (poll_succeeds app w1 ctx1 s b1 a1 Hi Hr1 Hd1)|].
  split; [apply (poll_succeeds app w2 ctx2 s b2 a2 Hi Hr2 Hd2)|].
  simpl. split; [apply publish_sameNumbers; exact Hsame|].
  intros t. apply publish_setTime.
Qed.

(** C10, as amended. When the decoded object has a member [timestamp]
    whose value is neither [null] nor a string that parses as a time, the
    decoding fails, the poll returns the error and no gauge changes,
    whatever the other members are. *)
Theorem bad_timestamp_fails_poll app w ctx s body ms v :
  receives app w ctx body ->
  scanner.scan body = Some (Object ms) ->
  In ("timestamp", v) ms ->
  v <> Null ->
  (forall raw, v = Str raw -> Time_parse raw = None) ->
  exists e s',
    getAwairData app w ctx s = Returns (Some e) s' /\ registry s' = registry s.
Proof.
  intros [Hu (resp & Hr & Hb)] Hscan Hin Hnull Hstr.
  destruct (Unmarshal_timestamp body ms v AwairStats_zero Hscan Hin Hnull Hstr) as [e He].
  assert (Hf : failsAt app w ctx Decode e).
  { split; [exact Hu|]. exists resp, body. auto. }
  exists e. eexists. split; [apply (poll_fails app w ctx s Decode e Hf)|reflexivity].
Qed.

End Claims.

(** ** The claims on sample inputs *)

Lemma startedApp_initialized : initialized startedApp.
Proof. intros []; reflexivity. Qed.

Lemma startedState_serving : serving (registry startedState).
Proof. intros []; reflexivity. Qed.

Lemma answers_receives app code body ctx : receives app (answers code body) ctx body.
Proof. split; [reflexivity|]. eexists. split; reflexivity. Qed.

Lemma readingOf_decodes body :
  snd (json.Unmarshal body AwairStats_zero) = None -> decodes body (readingOf body).
Proof.
  unfold decodes, readingOf. destruct (json.Unmarshal body AwairStats_zero) as [a e].
  simpl. intros ->. reflexivity.
Qed.

Lemma poll_publishes_reading_witness :
  exists s',
    getAwairData startedApp (answers 200 payload_scenario) background startedState
    = Returns None s'
    /\ shows (registry s') (readingOf payload_scenario).
Proof.
  apply (poll_publishes_reading startedApp (answers 200 payload_scenario) background
           startedState payload_scenario (readingOf payload_scenario)).
  - intros []; reflexivity.
  - intros []; reflexivity.
  - split; [reflexivity|]. eexists. split; reflexivity.
  - apply readingOf_decodes. vm_compute. reflexivity.
Defined.

(** The scenario of the specification: the body
    [{"temp":21.5,"co2":612,"score":88}] gives [temp_c = 21.5],
    [co2_ppm = 612], [score = 88] and zero everywhere else. *)
Example scenario_gauges :
  prometheus.Gather
    (registry (after (getAwairData startedApp (answers 200 payload_scenario) background
                        startedState)))
  = [("go_goroutines", float64.of_int 7);
     ("awair_climate_temp_c", float_21_5);
     ("awair_climate_relative_humidity", float64.zero);
     ("awair_climate_co2_ppm", float64.of_int 612);
     ("awair_climate_voc_ppb", float64.zero);
     ("awair_climate_pm25_ug_m3", float64.zero);
     ("awair_climate_score", float64.of_int 88);
     ("awair_climate_dew_point_c", float64.zero);
     ("awair_climate_absolute_humidity", float64.zero);
     ("awair_climate_co2_estimate", float64.zero);
     ("awair_climate_co2_estimate_baselines", float64.zero);
     ("awair_climate_voc_baseline", float64.zero);
     ("awair_climate_voc_h2_raw", float64.zero);
     ("awair_climate_voc_ethanol_raw", float64.zero);
     ("awair_climate_pm10_estimate", float64.zero)].
Proof. vm_compute. reflexivity. Qed.

Lemma failed_poll_keeps_gauges_witness :
  exists s',
    getAwairData startedApp unreachable background stateAt500
    = Returns (Some (url_Error "Get" "http://localhost/air-data/latest"
                               "context deadline exceeded")) s'
    /\ registry s' = registry stateAt500
    /\ forall n, prometheus.read n (registry s') = prometheus.read n (registry stateAt500).
Proof.
  apply (failed_poll_keeps_gauges startedApp unreachable background stateAt500 Transport).
  split; reflexivity.
Defined.

(** The second scenario: after a poll that read [co2 = 500] and one that
    timed out, [co2_ppm] still reads 500. *)
Example scenario_stale_co2 :
  prometheus.read "awair_climate_co2_ppm"
    (registry (after (getAwairData startedApp unreachable background stateAt500)))
  = Some (float64.of_int 500).
Proof. vm_compute. reflexivity. Qed.

Lemma absent_field_reads_zero_witness :
  exists s',
    getAwairData startedApp (answers 200 payload_scenario) background startedState
    = Returns None s'
    /\ prometheus.read "awair_climate_relative_humidity" (registry s') = Some float64.zero.
Proof.
  apply (absent_field_reads_zero startedApp (answers 200 payload_scenario) background
           startedState payload_scenario
           (Object [("temp", Number "21.5"); ("co2", Number "612"); ("score", Number "88")])
           (readingOf payload_scenario) FHumid GHumidity).
  - intros []; reflexivity.
  - intros []; reflexivity.
  - split; [reflexivity|]. eexists. split; reflexivity.
  - apply readingOf_decodes. vm_compute. reflexivity.
  - vm_compute. reflexivity.
  - reflexivity.
  - intros k [<-|[<-|[<-|[]]]]; vm_compute; discriminate.
Defined.

(** C3 as it stands fails: the object [{"TEMP":21.5}] has no key [temp],
    the decoder stores the value in the field all the same, and the gauge
    reads 21.5. *)
Lemma upper_case_key_counterexample :
  ~ (forall app w ctx s body v a f g,
        initialized app -> serving (registry s) ->
        receives app w ctx body -> decodes body a ->
        scanner.scan body = Some v ->
        gaugeOf f = Some g ->
        ~ In (tag f) (keysOf v) ->
        exists s',
          getAwairData app w ctx s = Returns None s' /\
          prometheus.read (metricName g) (registry s') = Some float64.zero).
Proof.
  intros Hclaim.
  destruct (Hclaim startedApp (answers 200 payload_upper) background startedState
              payload_upper (Object [("TEMP", Number "21.5")]) (readingOf payload_upper)
              FTemp GTemp)
    as (s' & Hrun & Hread).
  - apply startedApp_initialized.
  - apply startedState_serving.
  - apply answers_receives.
  - apply readingOf_decodes. vm_compute. reflexivity.
  - vm_compute. reflexivity.
  - reflexivity.
  - simpl. intros [E|[]]. discriminate E.
  - assert (Hs : s' = after (getAwairData startedApp (answers 200 payload_upper) background
                              startedState)) by (rewrite Hrun; reflexivity).
    subst s'. vm_compute in Hread. discriminate Hread.
Qed.

Lemma status_code_ignored_witness :
  exists s',
    getAwairData startedApp (answers 500 payload_scenario) background startedState
    = Returns None s'
    /\ shows (registry s') (readingOf payload_scenario)
    /\ forall w' code',
        url_Parse w' (AwairAddress startedApp) = None ->
        RoundTrip w' (request startedApp background)
        = inl {| StatusCode := code'; Body := inl payload_scenario |} ->
        getAwairData startedApp w' background startedState = Returns None s'.
Proof.
  apply (status_code_ignored startedApp (answers 500 payload_scenario) background
           startedState 500 payload_scenario (readingOf payload_scenario)).
  - intros []; reflexivity.
  - intros []; reflexivity.
  - reflexivity.
  - reflexivity.
  - apply readingOf_decodes. vm_compute. reflexivity.
Defined.

Lemma poll_errors_by_stage_witness :
  exists r s',
    getAwairData startedApp breaksOff background startedState = Returns r s' /\
    (forall e, r = Some e <-> exists st, failsAt startedApp breaksOff background st e) /\
    (r = None <->
     exists body a, receives startedApp breaksOff background body /\ decodes body a) /\
    (forall e, r = Some e ->
       exists st, failsAt startedApp breaksOff background st e /\
                  logs s' = (logs startedState ++ [errorEntry st e])%list) /\
    (forall st st', errorMessage st = errorMessage st' -> st = st') /\
    (exists t, events s' = (events startedState ++ t)%list /\
               (count isNewRequest t <= 1)%nat /\ (count isDo t <= 1)%nat /\
               (count isReadAll t <= 1)%nat).
Proof.
  apply (poll_errors_by_stage startedApp breaksOff background startedState).
  intros []; reflexivity.
Defined.

(** The four stages on sample worlds: the error returned and the message
    logged. *)
Example stage_RequestConstruction :
  exists s',
    getAwairData startedApp noURL background startedState
    = Returns (Some (url_Error "parse" "http://localhost/air-data/latest"
                               "missing protocol scheme")) s'
    /\ map Message (logs s') = ["Error creating request"].
Proof. eexists. split; [reflexivity | vm_compute; reflexivity]. Qed.

Example stage_Transport :
  exists e s',
    getAwairData startedApp unreachable background startedState = Returns (Some e) s'
    /\ map Message (logs s') = ["Error getting data from awair"].
Proof. do 2 eexists. split; [reflexivity | vm_compute; reflexivity]. Qed.

Example stage_BodyRead :
  exists s',
    getAwairData startedApp breaksOff background startedState
    = Returns (Some (io_Error "unexpected EOF")) s'
    /\ map Message (logs s') = ["Error reading response body"].
Proof. eexists. split; [reflexivity | vm_compute; reflexivity]. Qed.

Example stage_Decode :
  exists s',
    getAwairData startedApp (answers 200 "<html>") background startedState
    = Returns (Some json_SyntaxError) s'
    /\ map Message (logs s') = ["Error unmarshalling response body"].
Proof. eexists. split; [reflexivity | vm_compute; reflexivity]. Qed.

Lemma repeated_poll_idempotent_witness :
  exists s1 s2,
    getAwairData startedApp (answers 200 payload_scenario) background startedState
    = Returns None s1 /\
    getAwairData startedApp (answers 200 payload_scenario) background s1 = Returns None s2 /\
    registry s2 = registry s1.
Proof.
  apply (repeated_poll_idempotent startedApp (answers 200 payload_scenario)
           (answers 200 payload_scenario) background background startedState
           payload_scenario (readingOf payload_scenario)).
  - intros []; reflexivity.
  - split; [reflexivity|]. eexists. split; reflexivity.
  - split; [reflexivity|]. eexists. split; reflexivity.
  - apply readingOf_decodes. vm_compute. reflexivity.
Defined.

Lemma gauges_registered_once_at_start_witness :
  exists app s,
    main_start defaultFlags processStart = Returns app s /\
    initialized app /\
    (forall g, registrations (metricName g) (registry s) = 1%nat) /\
    (exists before,
        events s = (events processStart ++ before ++ [EvGo task_ListenAndServe])%list /\
        forall g, count (event_eqb_register (metricName g)) before = 1%nat) /\
    (forall g, In (metricName g, float64.zero) (prometheus.Gather (registry s))) /\
    (forall ctx sched,
        (forall w, In (case_ticker_C w) sched -> exists st e, failsAt app w ctx st e) ->
        exists le s',
          loop app ctx sched s = Returns le s' /\
          forall g, In (metricName g, float64.zero) (prometheus.Gather (registry s'))).
Proof.
  apply (gauges_registered_once_at_start defaultFlags processStart).
  intros []; reflexivity.
Defined.

(** A scrape before any poll: the collector of the library and the
    fourteen gauges at zero. *)
Example scrape_before_first_poll :
  prometheus.Gather (registry startedState)
  = ("go_goroutines", float64.of_int 7)
    :: map (fun g => (metricName g, float64.zero)) gaugeFields.
Proof. vm_compute. reflexivity. Qed.

Lemma gauges_depend_on_numbers_only_witness :
  exists s1 s2,
    getAwairData startedApp (answers 200 payload_timed) background startedState
    = Returns None s1 /\
    getAwairData startedApp (answers 200 payload_extra) background startedState
    = Returns None s2 /\
    registry s1 = registry s2 /\
    forall t, publish (json.setTime t (readingOf payload_timed)) (registry startedState)
              = registry s1.
Proof.
  apply (gauges_depend_on_numbers_only startedApp (answers 200 payload_timed)
           (answers 200 payload_extra) background background startedState
           payload_timed payload_extra (readingOf payload_timed) (readingOf payload_extra)).
  - intros []; reflexivity.
  - split; [reflexivity|]. eexists. split; reflexivity.
  - apply readingOf_decodes. vm_compute. reflexivity.
  - split; [reflexivity|]. eexists. split; reflexivity.
  - apply readingOf_decodes. vm_compute. reflexivity.
  - vm_compute. repeat split.
Defined.

Example payload_timed_has_timestamp :
  Timestamp (readingOf payload_timed)
  = {| year := 2024; month := 5; day := 1; hour := 12; minute := 0; second := 0 |}
  /\ Timestamp (readingOf payload_extra) = Time_zero.
Proof. split; vm_compute; reflexivity. Qed.

Lemma bad_timestamp_fails_poll_witness :
  exists e s',
    getAwairData startedApp (answers 200 payload_bad_time) background startedState
    = Returns (Some e) s'
    /\ registry s' = registry startedState.
Proof.
  apply (bad_timestamp_fails_poll startedApp (answers 200 payload_bad_time) background
           startedState payload_bad_time
           [("timestamp", Str "yesterday"); ("temp", Number "21.5")] (Str "yesterday")).
  - split; [reflexivity|]. eexists. split; reflexivity.
  - vm_compute. reflexivity.
  - left. reflexivity.
  - discriminate.
  - intros raw E. injection E as <-. reflexivity.
Defined.

(** C10 as it stands fails: in [{"timestamp":null,"temp":21.5}] the value
    of [timestamp] is no string, yet the decoding succeeds, the poll returns
    no error and [temp_c] is set. *)
Lemma null_timestamp_counterexample :
  ~ (forall app w ctx s body ms v,
        receives app w ctx body ->
        scanner.scan body = Some (Object ms) ->
        In ("timestamp", v) ms ->
        (forall raw, v = Str raw -> Time_parse raw = None) ->
        exists e s',
          getAwairData app w ctx s = Returns (Some e) s' /\ registry s' = registry s).
Proof.
  intros Hclaim.
  destruct (Hclaim startedApp (answers 200 payload_null_time) background startedState
              payload_null_time [("timestamp", Null); ("temp", Number "21.5")] Null)
    as (e & s' & Hrun & _).
  - apply answers_receives.
  - vm_compute. reflexivity.
  - left. reflexivity.
  - intros raw E. discriminate E.
  - apply (f_equal returned) in Hrun. vm_compute in Hrun. discriminate Hrun.
Qed.

Example null_timestamp_poll :
  prometheus.read "awair_climate_temp_c"
    (registry (after (getAwairData startedApp (answers 200 payload_null_time) background
                        startedState)))
  = Some float_21_5.
Proof. vm_compute. reflexivity. Qed.

(** * Further properties of the program *)

(** ** One poll: what it touches *)

Lemma names_set n x r : map fqName (prometheus.set n x r) = map fqName r.
Proof.
  unfold prometheus.set. rewrite map_map. apply map_ext.
  intros g. destruct (String.eqb (fqName g) n); reflexivity.
Qed.

Lemma helps_set n x r : map help (prometheus.set n x r) = map help r.
Proof.
  unfold prometheus.set. rewrite map_map. apply map_ext.
  intros g. destruct (String.eqb (fqName g) n); reflexivity.
Qed.

Section OnePoll.

Context `{TimePkg}.

Lemma names_publish a r : map fqName (publish a r) = map fqName r.
Proof. unfold publish. rewrite !names_set. reflexivity. Qed.

Lemma helps_publish a r : map help (publish a r) = map help r.
Proof. unfold publish. rewrite !helps_set. reflexivity. Qed.

Lemma read_publish_other a r n :
  (forall g, n <> metricName g) ->
  prometheus.read n (publish a r) = prometheus.read n r.
Proof.
  intros Hn. unfold publish.
  rewrite (read_set_other n _ _ _ (Hn GPm10Estimate)).
  rewrite (read_set_other n _ _ _ (Hn GVocEthanolRaw)).
  rewrite (read_set_other n _ _ _ (Hn GVOCH2Raw)).
  rewrite (read_set_other n _ _ _ (Hn GVOCBaseline)).
  rewrite (read_set_other n _ _ _ (Hn GCo2EstimateBaselines)).
  rewrite (read_set_other n _ _ _ (Hn GCo2Estimate)).
  rewrite (read_set_other n _ _ _ (Hn GAbsoluteHumidity)).
  rewrite (read_set_other n _ _ _ (Hn GDewPoint)).
  rewrite (read_set_other n _ _ _ (Hn GScore)).
  rewrite (read_set_other n _ _ _ (Hn GPM25)).
  rewrite (read_set_other n _ _ _ (Hn GVOC)).
  rewrite (read_set_other n _ _ _ (Hn GCo2)).
  rewrite (read_set_other n _ _ _ (Hn GHumidity)).
  rewrite (read_set_other n _ _ _ (Hn GTemp)).
  reflexivity.
Qed.

(** X1. A poll, whatever its result, registers nothing and unregisters
    nothing, leaves every help text alone, and leaves the value of every
    collector that is not one of the fourteen gauges as it was. *)
Theorem poll_touches_only_its_gauges app w ctx s :
  initialized app ->
  map fqName (registry (after (getAwairData app w ctx s))) = map fqName (registry s) /\
  map help (registry (after (getAwairData app w ctx s))) = map help (registry s) /\
  forall n, (forall g, n <> metricName g) ->
    prometheus.read n (registry (after (getAwairData app w ctx s)))
    = prometheus.read n (registry s).
Proof.
  intros Hi.
  destruct (poll_cases app w ctx) as [(st & e & Hf)|(body & a & Hr & Hd)].
  - rewrite (poll_fails app w ctx s st e Hf). simpl. repeat split; reflexivity.
  - rewrite (poll_succeeds app w ctx s body a Hi Hr Hd). cbn [after registry].
    split; [apply names_publish|]. split; [apply helps_publish|].
    intros n Hn. apply read_publish_other. exact Hn.
Qed.

Lemma publish1_overwrites a b g : publish1 b (publish1 a g) = publish1 b g.
Proof.
  unfold publish1.
  do 14 (match goal with
         | |- context [upd ?n (_ a) g] =>
             let E := fresh "E" in
             destruct (String.eqb_spec (fqName g) n) as [E|E];
             [ destruct g as [gn gh gv]; simpl in E; subst gn; reflexivity
             | rewrite (upd_other n (_ a) g E) ]
         | |- context [upd ?n (float64.of_int (_ a)) g] =>
             let E := fresh "E" in
             destruct (String.eqb_spec (fqName g) n) as [E|E];
             [ destruct g as [gn gh gv]; simpl in E; subst gn; reflexivity
             | rewrite (upd_other n (float64.of_int (_ a)) g E) ]
         end).
  reflexivity.
Qed.

Lemma publish_overwrites a b r : publish b (publish a r) = publish b r.
Proof.
  rewrite !publish_map, map_map. apply map_ext. intros g. apply publish1_overwrites.
Qed.

(** X2. The last reading wins: after two successful polls the registry is
    what the second poll alone would have left; nothing of the first
    reading stays behind. *)
Theorem later_poll_overwrites app w1 w2 ctx1 ctx2 s b1 b2 a1 a2 :
  initialized app ->
  receives app w1 ctx1 b1 -> decodes b1 a1 ->
  receives app w2 ctx2 b2 -> decodes b2 a2 ->
  exists s1 s2 s2',
    getAwairData app w1 ctx1 s = Returns None s1 /\
    getAwairData app w2 ctx2 s1 = Returns None s2 /\
    getAwairData app w2 ctx2 s = Returns None s2' /\
    registry s2 = registry s2'.
Proof.
  intros Hi Hr1 Hd1 Hr2 Hd2. do 3 eexists.
  split; [apply (poll_succeeds app w1 ctx1 s b1 a1 Hi Hr1 Hd1)|].
  split; [apply (poll_succeeds app w2 ctx2 _ b2 a2 Hi Hr2 Hd2)|].
  split; [apply (poll_succeeds app w2 ctx2 s b2 a2 Hi Hr2 Hd2)|].
  cbn [registry]. apply publish_overwrites.
Qed.

(** X3. Every poll writes exactly one log entry: at the info level, with
    the decoded reading, when it returns no error, and at the error level
    when it returns one. *)
Theorem poll_logs_once app w ctx s :
  initialized app ->
  exists r s' en,
    getAwairData app w ctx s = Returns r s' /\
    logs s' = (logs s ++ [en])%list /\
    (r = None -> Level en = InfoLevel /\
                 exists body a, receives app w ctx body /\ decodes body a /\
                                en = successEntry a) /\
    (forall e, r = Some e -> Level en = ErrorLevel /\ Fields en = [zap_Error e]).
Proof.
  intros Hi.
  destruct (poll_cases app w ctx) as [(st & e & Hf)|(body & a & Hr & Hd)].
  - do 3 eexists. split; [apply (poll_fails app w ctx s st e Hf)|].
    split; [reflexivity|]. split; [discriminate|].
    intros e' [= <-]. split; reflexivity.
  - do 3 eexists. split; [apply (poll_succeeds app w ctx s body a Hi Hr Hd)|].
    split; [reflexivity|]. split; [|discriminate].
    intros _. split; [reflexivity|]. exists body, a. auto.
Qed.

(** X4. What a poll opens it closes: its context is cancelled at the end
    of every poll; when the request cannot be built nothing is sent; when
    the transport gives a response its body is closed once, after the read,
    also when the read or the decoding fails; when the transport fails
    there is no body to close. *)
Theorem poll_releases_resources app w ctx s :
  initialized app ->
  exists t,
    events (after (getAwairData app w ctx s)) = (events s ++ t ++ [EvCancel])%list /\
    count isWithTimeout t = 1%nat /\
    (url_Parse w (AwairAddress app) <> None -> count isDo t = 0%nat) /\
    (url_Parse w (AwairAddress app) = None ->
     (forall e, RoundTrip w (request app ctx) = inr e -> count isBodyClose t = 0%nat) /\
     (forall resp, RoundTrip w (request app ctx) = inl resp ->
        exists t0, t = (t0 ++ [EvReadAll; EvBodyClose])%list /\
                   count isBodyClose t0 = 0%nat)).
Proof.
  intros Hi.
  destruct (poll_cases app w ctx) as [(st & e & Hf)|(body & a & Hr & Hd)].
  - rewrite (poll_fails app w ctx s st e Hf). cbn [after events].
    destruct st; simpl in Hf.
    + exists [EvWithTimeout Second; EvNewRequest MethodGet (AwairAddress app)].
      split; [reflexivity|]. split; [reflexivity|]. split; [reflexivity|].
      intros Hu. congruence.
    + destruct Hf as [Hu Hr].
      exists [EvWithTimeout Second; EvNewRequest MethodGet (AwairAddress app);
              EvDo (AwairAddress app)].
      split; [reflexivity|]. split; [reflexivity|]. split; [congruence|].
      intros _. split; [reflexivity|]. intros resp Hr'. congruence.
    + destruct Hf as [Hu (resp & Hr & Hb)].
      exists [EvWithTimeout Second; EvNewRequest MethodGet (AwairAddress app);
              EvDo (AwairAddress app); EvReadAll; EvBodyClose].
      split; [reflexivity|]. split; [reflexivity|]. split; [congruence|].
      intros _. split; [intros e' Hr'; congruence|].
      intros resp' _.
      exists [EvWithTimeout Second; EvNewRequest MethodGet (AwairAddress app);
              EvDo (AwairAddress app)].
      split; reflexivity.
    + destruct Hf as [Hu (resp & body & Hr & Hb & Hd)].
      exists [EvWithTimeout Second; EvNewRequest MethodGet (AwairAddress app);
              EvDo (AwairAddress app); EvReadAll; EvBodyClose].
      split; [reflexivity|]. split; [reflexivity|]. split; [congruence|].
      intros _. split; [intros e' Hr'; congruence|].
      intros resp' _.
      exists [EvWithTimeout Second; EvNewRequest MethodGet (AwairAddress app);
              EvDo (AwairAddress app)].
      split; reflexivity.
  - rewrite (poll_succeeds app w ctx s body a Hi Hr Hd). cbn [after events].
    destruct Hr as [Hu (resp & Hr & Hb)].
    exists [EvWithTimeout Second; EvNewRequest MethodGet (AwairAddress app);
            EvDo (AwairAddress app); EvReadAll; EvBodyClose].
    split; [reflexivity|]. split; [reflexivity|]. split; [congruence|].
    intros _. split; [intros e' Hr'; congruence|].
    intros resp' _.
    exists [EvWithTimeout Second; EvNewRequest MethodGet (AwairAddress app);
            EvDo (AwairAddress app)].
    split; reflexivity.
Qed.

End OnePoll.

(** ** One poll: gauges that were never created *)

Section NilGauge.

Context `{TimePkg}.

(** X5. On an [App] whose first gauge is nil, a poll that receives a body
    and decodes it panics at the first [Set]: no gauge has changed and
    nothing is logged, and the deferred calls still close the body and
    cancel the context. A poll that fails returns its error as on any
    [App]. *)
Theorem poll_on_nil_gauge_panics app w ctx s body a :
  TempGauge app = None ->
  receives app w ctx body -> decodes body a ->
  (exists v s',
      getAwairData app w ctx s = Panics v s' /\
      registry s' = registry s /\ logs s' = logs s /\
      events s' = (events s ++ pollEvents app None)%list) /\
  (forall w' st e, failsAt app w' ctx st e ->
      exists s', getAwairData app w' ctx s = Returns (Some e) s' /\
                 registry s' = registry s).
Proof.
  intros Hnil [Hu (resp & Hr & Hb)] Hd. split.
  - unfold getAwairData, http_NewRequestWithContext, http_DefaultClient_Do, ioutil_ReadAll.
    fold (request app ctx). rewrite Hu.
    lazy [defer bind emit ret registry logs events]. rewrite Hr.
    lazy [defer bind emit ret registry logs events]. rewrite Hb.
    unfold decodes in Hd. rewrite Hd. rewrite Hnil.
    lazy [defer bind emit ret Gauge_Set registry logs events].
    do 2 eexists. split; [reflexivity|]. cbn [registry logs events].
    rewrite <- !app_assoc. repeat split; reflexivity.
  - intros w' st e Hf. eexists.
    split; [apply (poll_fails app w' ctx s st e Hf)|reflexivity].
Qed.

End NilGauge.

(** ** Decoding: which members of the object count *)

Section Members.

Context `{TimePkg}.

Lemma setTime_same a : json.setTime (Timestamp a) a = a.
Proof. destruct a; reflexivity. Qed.

Lemma store_target d : json.store (json.target d) d = d.
Proof. destruct d; reflexivity. Qed.

Lemma storeField_null f d : json.storeField f Null d = inl d.
Proof.
  unfold json.storeField. destruct (kind_of f); simpl; try reflexivity.
  rewrite setTime_same, store_target. reflexivity.
Qed.

Lemma object_relevant ms : forall d,
  json.object ms d = json.object (filter relevant ms) d.
Proof.
  induction ms as [|[k v] ms IH]; intros d; [reflexivity|].
  simpl. unfold relevant at 1. simpl.
  destruct (json.fieldOf k) as [f|] eqn:Hk.
  - destruct v; simpl; rewrite ?Hk;
      try (destruct (json.storeField f _ d); [apply IH | reflexivity]).
    rewrite storeField_null. apply IH.
  - apply IH.
Qed.

Lemma object_app ms1 ms2 d :
  json.object (ms1 ++ ms2) d =
  match json.object ms1 d with
  | inl d' => json.object ms2 d'
  | inr stop => inr stop
  end.
Proof.
  revert d. induction ms1 as [|[k v] ms1 IH]; intros d; [reflexivity|].
  simpl. destruct (json.fieldOf k) as [f|]; [|apply IH].
  destruct (json.storeField f v d); [apply IH | reflexivity].
Qed.

(** The first type error met is kept to the end of the object. *)
Lemma object_keeps_error ms : forall d d' e,
  json.savedError d = Some e ->
  json.object ms d = inl d' ->
  json.savedError d' = Some e.
Proof.
  induction ms as [|[k v] ms IH]; intros d d' e He; simpl.
  - intros [= <-]. exact He.
  - destruct (json.fieldOf k) as [f|]; [|apply IH; exact He].
    destruct (json.storeField f v d) as [d1|stop] eqn:Hs; [|discriminate].
    apply IH.
    unfold json.storeField in Hs.
    destruct (kind_of f).
    + destruct (json.Time_UnmarshalJSON v (Timestamp (json.target d))) as [t [e'|]];
        [discriminate|]. injection Hs as <-. exact He.
    + destruct v; try (injection Hs as <-; simpl; rewrite He; reflexivity);
        try (injection Hs as <-; exact He).
      destruct (strconv.ParseInt item); injection Hs as <-;
        [exact He | simpl; rewrite He; reflexivity].
    + destruct v; try (injection Hs as <-; simpl; rewrite He; reflexivity);
        try (injection Hs as <-; exact He).
      destruct (strconv.ParseFloat item); injection Hs as <-;
        [exact He | simpl; rewrite He; reflexivity].
Qed.

Lemma storeField_misfit f v d :
  misfit f v = true ->
  exists d', json.storeField f v d = inl d' /\ json.savedError d' <> None.
Proof.
  unfold misfit, parsed, json.storeField.
  destruct (kind_of f); [discriminate| |];
    destruct v; try discriminate; intros Hm;
    try (eexists; split; [reflexivity|];
         simpl; destruct (json.savedError d); discriminate).
  - destruct (strconv.ParseInt item); [discriminate|].
    eexists; split; [reflexivity|]. simpl. destruct (json.savedError d); discriminate.
  - destruct (strconv.ParseFloat item); [discriminate|].
    eexists; split; [reflexivity|]. simpl. destruct (json.savedError d); discriminate.
Qed.

Lemma object_misfit ms k v f :
  In (k, v) ms -> json.fieldOf k = Some f -> misfit f v = true ->
  forall d,
    match json.object ms d with
    | inl d' => json.savedError d' <> None
    | inr _ => True
    end.
Proof.
  intros Hin Hk Hm.
  induction ms as [|[k' v'] ms IH]; [contradiction|].
  intros d. simpl. destruct Hin as [E|Hin].
  - injection E as -> ->. rewrite Hk.
    destruct (storeField_misfit f v d Hm) as (d1 & -> & Hsaved).
    destruct (json.savedError d1) as [e|] eqn:He; [|congruence].
    destruct (json.object ms d1) as [d'|stop] eqn:Ho; [|exact I].
    rewrite (object_keeps_error ms d1 d' e He Ho). discriminate.
  - destruct (json.fieldOf k') as [f'|]; [|apply IH; exact Hin].
    destruct (json.storeField f' v' d) as [d1|stop]; [apply IH; exact Hin | exact I].
Qed.

End Members.

(** ** One poll: what of the body matters *)

Section Bodies.

Context `{TimePkg}.

(** A poll depends on the world only through the body it receives, and on
    the body only through what it decodes to. *)
Lemma poll_same_decoding app w1 w2 ctx1 ctx2 s b1 b2 :
  receives app w1 ctx1 b1 -> receives app w2 ctx2 b2 ->
  json.Unmarshal b1 AwairStats_zero = json.Unmarshal b2 AwairStats_zero ->
  getAwairData app w1 ctx1 s = getAwairData app w2 ctx2 s.
Proof.
  intros [Hu1 (r1 & Hr1 & Hb1)] [Hu2 (r2 & Hr2 & Hb2)] Hd.
  unfold getAwairData, http_NewRequestWithContext, http_DefaultClient_Do, ioutil_ReadAll.
  fold (request app ctx1). fold (request app ctx2). rewrite Hu1, Hu2.
  lazy [defer bind emit ret registry logs events]. rewrite Hr1, Hr2.
  lazy [defer bind emit ret registry logs events]. rewrite Hb1, Hb2.
  rewrite Hd. reflexivity.
Qed.

Lemma poll_decode_error app w ctx s body e :
  receives app w ctx body ->
  snd (json.Unmarshal body AwairStats_zero) = Some e ->
  getAwairData app w ctx s =
  Returns (Some e)
    {| registry := registry s; logs := (logs s ++ [errorEntry Decode e])%list;
       events := (events s ++ pollEvents app (Some Decode))%list |}.
Proof.
  intros [Hu (resp & Hr & Hb)] He. apply poll_fails.
  split; [exact Hu|]. exists resp, body. auto.
Qed.

(** X6. Members under keys that name no field, and members whose value is
    [null], play no part: two bodies whose objects have the same other
    members in the same order give the same poll, result, gauges and log
    alike. *)
Theorem irrelevant_members_ignored app w1 w2 ctx1 ctx2 s b1 b2 ms1 ms2 :
  receives app w1 ctx1 b1 -> receives app w2 ctx2 b2 ->
  scanner.scan b1 = Some (Object ms1) -> scanner.scan b2 = Some (Object ms2) ->
  filter relevant ms1 = filter relevant ms2 ->
  getAwairData app w1 ctx1 s = getAwairData app w2 ctx2 s.
Proof.
  intros Hr1 Hr2 Hs1 Hs2 Hsame.
  apply (poll_same_decoding app w1 w2 ctx1 ctx2 s b1 b2 Hr1 Hr2).
  unfold json.Unmarshal. rewrite Hs1, Hs2.
  rewrite (object_relevant ms1), (object_relevant ms2), Hsame. reflexivity.
Qed.

(** X7. One member that does not fit its numeric field fails the whole
    poll: a string, a boolean, an array or an object where a number is
    expected, a number with a fraction or an exponent or beyond 64 bits for
    an integer field, a number beyond the range of [float64] for a float
    field. The poll returns an error and no gauge changes, also not the
    gauges of the members that are well formed. *)
Theorem misfit_member_fails_poll app w ctx s body ms k v f :
  receives app w ctx body ->
  scanner.scan body = Some (Object ms) ->
  In (k, v) ms -> json.fieldOf k = Some f -> misfit f v = true ->
  exists e s',
    getAwairData app w ctx s = Returns (Some e) s' /\ registry s' = registry s.
Proof.
  intros Hr Hscan Hin Hk Hm.
  assert (He : exists e, snd (json.Unmarshal body AwairStats_zero) = Some e).
  { unfold json.Unmarshal. rewrite Hscan.
    pose proof (object_misfit ms k v f Hin Hk Hm
                  {| json.target := AwairStats_zero; json.savedError := None |}) as Ho.
    destruct (json.object ms _) as [d|[a e]]; simpl.
    - destruct (json.savedError d) as [e|]; [eauto|congruence].
    - eauto. }
  destruct He as [e He]. exists e. eexists.
  split; [apply (poll_decode_error app w ctx s body e Hr He)|reflexivity].
Qed.

Lemma storeField_parsed f g item x d :
  gaugeOf f = Some g -> parsed f item = Some x ->
  exists d', json.storeField f (Number item) d = inl d' /\
             gaugeValue g (json.target d') = x.
Proof.
  intros Hg Hp. unfold parsed in Hp. unfold json.storeField.
  destruct f; simpl in Hg; inversion Hg; subst g; simpl in Hp |- *;
    match type of Hp with
    | match strconv.ParseInt item with _ => _ end = _ =>
        destruct (strconv.ParseInt item); [|discriminate];
        injection Hp as <-; eexists; split; reflexivity
    | strconv.ParseFloat item = _ =>
        rewrite Hp; eexists; split; reflexivity
    end.
Qed.

(** X8. When a field is given more than once the last member decides: in
    a body that decodes, the gauge of a numeric field shows the number of
    the last member that names the field (up to case), whatever the members
    before it say. *)
Theorem last_member_decides app w ctx s body ms k item ms' a f g x :
  initialized app -> serving (registry s) ->
  receives app w ctx body -> decodes body a ->
  scanner.scan body = Some (Object (ms ++ (k, Number item) :: ms')) ->
  json.fieldOf k = Some f -> gaugeOf f = Some g -> parsed f item = Some x ->
  (forall k', In k' (map fst ms') -> json.foldName k' <> json.foldName (tag f)) ->
  exists s',
    getAwairData app w ctx s = Returns None s' /\
    prometheus.read (metricName g) (registry s') = Some x.
Proof.
  intros Hi Hs Hr Hd Hscan Hk Hg Hp Hlast.
  destruct (poll_publishes_reading app w ctx s body a Hi Hs Hr Hd) as (s' & Hrun & Hshow).
  exists s'. split; [exact Hrun|].
  assert (Hval : gaugeValue g a = x).
  { unfold decodes, json.Unmarshal in Hd. rewrite Hscan in Hd.
    rewrite object_app in Hd.
    destruct (json.object ms _) as [d1|stop]; [|destruct stop; discriminate].
    simpl in Hd. rewrite Hk in Hd.
    destruct (storeField_parsed f g item x d1 Hg Hp) as (d2 & Hst & Hv).
    rewrite Hst in Hd.
    destruct (json.object ms' d2) as [d3|[a' e]] eqn:Ho; [|discriminate].
    injection Hd as <- _.
    rewrite (object_absent f g ms' d2 d3 Hg Hlast Ho). exact Hv. }
  rewrite <- Hval.
  destruct Hshow as (H1 & H2 & H3 & H4 & H5 & H6 & H7 & H8 & H9 & H10 & H11 & H12 & H13 & H14).
  destruct g; assumption.
Qed.

(** X9. A body that is no JSON text fails the poll with a syntax error,
    and a JSON text that is neither an object nor [null] (a number, a
    string, a boolean, an array) fails it with a type error; in both cases
    no gauge changes. *)
Theorem non_object_body_fails_poll app w ctx s body :
  receives app w ctx body ->
  (scanner.scan body = None ->
   exists s', getAwairData app w ctx s = Returns (Some json_SyntaxError) s' /\
              registry s' = registry s) /\
  (forall v, scanner.scan body = Some v ->
     v <> Null -> (forall ms, v <> Object ms) ->
     exists what s',
       getAwairData app w ctx s
       = Returns (Some (json_UnmarshalTypeError what EmptyString)) s' /\
       registry s' = registry s).
Proof.
  intros Hr. split.
  - intros Hscan. eexists. split.
    + apply (poll_decode_error app w ctx s body json_SyntaxError Hr).
      unfold json.Unmarshal. rewrite Hscan. reflexivity.
    + reflexivity.
  - intros v Hscan Hnull Hobj. exists (json.describe v). eexists. split.
    + apply (poll_decode_error app w ctx s body _ Hr).
      unfold json.Unmarshal. rewrite Hscan.
      destruct v; try reflexivity; [contradiction | exfalso; eapply Hobj; reflexivity].
    + reflexivity.
Qed.

(** X10. A body that is [null], or an object none of whose members counts
    (an empty object, an object of unknown keys and nulls, such as an error
    message in JSON), decodes to the zero reading: the poll succeeds and
    sets every one of the fourteen gauges to zero. *)
Theorem empty_reading_zeroes_gauges app w ctx s body v :
  initialized app -> serving (registry s) ->
  receives app w ctx body ->
  scanner.scan body = Some v ->
  (v = Null \/ exists ms, v = Object ms /\ filter relevant ms = []) ->
  exists s',
    getAwairData app w ctx s = Returns None s' /\
    forall g, prometheus.read (metricName g) (registry s') = Some float64.zero.
Proof.
  intros Hi Hs Hr Hscan Hv.
  assert (Hd : decodes body AwairStats_zero).
  { unfold decodes, json.Unmarshal. rewrite Hscan.
    destruct Hv as [->|(ms & -> & Hnone)]; [reflexivity|].
    rewrite object_relevant, Hnone. reflexivity. }
  destruct (poll_publishes_reading app w ctx s body _ Hi Hs Hr Hd) as (s' & Hrun & Hshow).
  exists s'. split; [exact Hrun|].
  destruct Hshow as (H1 & H2 & H3 & H4 & H5 & H6 & H7 & H8 & H9 & H10 & H11 & H12 & H13 & H14).
  intros []; assumption.
Qed.

End Bodies.

(** ** The loop of [recordMetrics] *)

Lemma count_app p l1 l2 : count p (l1 ++ l2) = (count p l1 + count p l2)%nat.
Proof. unfold count. rewrite filter_app, length_app. reflexivity. Qed.

Section Ticks.

Context `{TimePkg}.

(** X11. With a poll frequency that is not positive, [recordMetrics]
    panics in [time.NewTicker] before the first [select]: nothing is polled
    and the state is untouched, whatever the schedule. *)
Theorem recordMetrics_panics_on_bad_interval app ctx sched s :
  TimeBetweenChecks app <= 0 ->
  recordMetrics app ctx sched s = Panics "non-positive interval for NewTicker" s.
Proof.
  intros Hd. unfold recordMetrics, time_NewTicker, bind.
  destruct (Z.leb_spec (TimeBetweenChecks app) 0) as [_|Hlt]; [reflexivity|lia].
Qed.

Lemma poll_events app w ctx s :
  initialized app ->
  exists r s' reached,
    getAwairData app w ctx s = Returns r s' /\
    events s' = (events s ++ pollEvents app reached)%list /\
    map fqName (registry s') = map fqName (registry s) /\
    (serving (registry s) -> serving (registry s')).
Proof.
  intros Hi.
  destruct (poll_cases app w ctx) as [(st & e & Hf)|(body & a & Hr & Hd)].
  - exists (Some e). eexists. exists (Some st).
    split; [apply (poll_fails app w ctx s st e Hf)|].
    cbn [registry events]. auto.
  - exists None. eexists. exists None.
    split; [apply (poll_succeeds app w ctx s body a Hi Hr Hd)|].
    cbn [registry events]. split; [reflexivity|].
    split; [apply names_publish | apply serving_publish].
Qed.

Lemma pollEvents_counts app reached :
  count isWithTimeout (pollEvents app reached) = 1%nat /\
  count isNewRequest (pollEvents app reached) = 1%nat /\
  count isRegister (pollEvents app reached) = 0%nat.
Proof. destruct reached as [[]|]; repeat split; reflexivity. Qed.

(** The ticks at the head of a schedule: one poll each, then the loop goes
    on with the rest of the schedule. *)
Lemma loop_ticks app ctx ticks :
  initialized app ->
  forallb isTick ticks = true ->
  forall s, exists s' t,
    (forall rest, loop app ctx (ticks ++ rest) s = loop app ctx rest s') /\
    events s' = (events s ++ t)%list /\
    count isWithTimeout t = List.length ticks /\
    count isNewRequest t = List.length ticks /\
    count isRegister t = 0%nat /\
    map fqName (registry s') = map fqName (registry s) /\
    (serving (registry s) -> serving (registry s')).
Proof.
  intros Hi. induction ticks as [|[w|] ticks IH]; intros Hticks s.
  - exists s, []. rewrite app_nil_r. repeat split; auto.
  - destruct (poll_events app w ctx s Hi) as (r & s1 & reached & Hrun & Hev & Hn & Hs).
    destruct (IH Hticks s1) as (s' & t & Hloop & Hev' & Hc1 & Hc2 & Hc3 & Hn' & Hs').
    destruct (pollEvents_counts app reached) as (Hp1 & Hp2 & Hp3).
    exists s', (pollEvents app reached ++ t)%list.
    split; [|split; [|split; [|split; [|split; [|split]]]]].
    + intros rest. simpl. unfold bind. rewrite Hrun. apply Hloop.
    + rewrite Hev', Hev, <- app_assoc. reflexivity.
    + rewrite count_app, Hp1, Hc1. reflexivity.
    + rewrite count_app, Hp2, Hc2. reflexivity.
    + rewrite count_app, Hp3, Hc3. reflexivity.
    + rewrite Hn', Hn. reflexivity.
    + auto.
  - discriminate Hticks.
Qed.

Lemma loop_ticks_stop app ctx ticks :
  initialized app ->
  forallb isTick ticks = true ->
  forall s, exists s' t,
    (forall rest, loop app ctx (ticks ++ rest) s = loop app ctx rest s') /\
    events s' = (events s ++ t)%list /\
    count isWithTimeout t = List.length ticks /\
    count isTickerStop t = 0%nat.
Proof.
  intros Hi. induction ticks as [|[w|] ticks IH]; intros Hticks s.
  - exists s, []. rewrite app_nil_r. repeat split; auto.
  - destruct (poll_events app w ctx s Hi) as (r & s1 & reached & Hrun & Hev & _ & _).
    destruct (IH Hticks s1) as (s' & t & Hloop & Hev' & Hc1 & Hc2).
    destruct (pollEvents_counts app reached) as (Hp1 & _ & _).
    exists s', (pollEvents app reached ++ t)%list.
    split; [|split; [|split]].
    + intros rest. simpl. unfold bind. rewrite Hrun. apply Hloop.
    + rewrite Hev', Hev, <- app_assoc. reflexivity.
    + rewrite count_app, Hp1, Hc1. reflexivity.
    + rewrite count_app, Hc2. destruct reached as [[]|]; reflexivity.
  - discriminate Hticks.
Qed.

(** X12. With a positive poll frequency, a run of [recordMetrics] whose
    [select] receives ticks and then the end of the context creates the
    ticker, makes exactly one poll per tick (whether the polls fail or
    not), stops the ticker and returns; what the schedule holds after the
    end of the context is never looked at, and the run registers nothing. *)
Theorem recordMetrics_polls_once_per_tick app ctx ticks rest s :
  initialized app ->
  0 < TimeBetweenChecks app ->
  forallb isTick ticks = true ->
  exists s' t,
    recordMetrics app ctx (ticks ++ case_ctx_Done :: rest) s = Returns Returned s' /\
    events s' = (events s ++ [EvNewTicker (TimeBetweenChecks app)] ++ t
                 ++ [EvTickerStop])%list /\
    count isWithTimeout t = List.length ticks /\
    count isNewRequest t = List.length ticks /\
    map fqName (registry s') = map fqName (registry s) /\
    forall rest',
      recordMetrics app ctx (ticks ++ case_ctx_Done :: rest') s = Returns Returned s'.
Proof.
  intros Hi Hd Hticks.
  destruct (loop_ticks app ctx ticks Hi Hticks
              {| registry := registry s; logs := logs s;
                 events := (events s ++ [EvNewTicker (TimeBetweenChecks app)])%list |})
    as (s1 & t & Hloop & Hev & Hc1 & Hc2 & _ & Hn & _).
  assert (Hrun : forall rest',
             recordMetrics app ctx (ticks ++ case_ctx_Done :: rest') s
             = Returns Returned
                 {| registry := registry s1; logs := logs s1;
                    events := (events s1 ++ [EvTickerStop])%list |}).
  { intros rest'. unfold recordMetrics, time_NewTicker.
    destruct (Z.leb_spec (TimeBetweenChecks app) 0) as [Hle|_]; [lia|].
    unfold bind at 1. unfold emit at 1. rewrite Hloop. reflexivity. }
  eexists. exists t. split; [apply Hrun|].
  cbn [registry events]. split.
  { rewrite Hev. cbn [events]. rewrite <- !app_assoc. reflexivity. }
  split; [exact Hc1|]. split; [exact Hc2|]. split; [exact Hn|]. exact Hrun.
Qed.

(** X17. Without the end of the context the loop does not return: on a
    schedule of ticks only, however many and whether their polls fail or
    not, [recordMetrics] has made one poll per tick, still waits in
    [select], and has not stopped its ticker. *)
Theorem recordMetrics_waits_without_Done app ctx ticks s :
  initialized app ->
  0 < TimeBetweenChecks app ->
  forallb isTick ticks = true ->
  exists s' t,
    recordMetrics app ctx ticks s = Returns Waiting s' /\
    events s' = (events s ++ [EvNewTicker (TimeBetweenChecks app)] ++ t)%list /\
    count isWithTimeout t = List.length ticks /\
    count isTickerStop t = 0%nat.
Proof.
  intros Hi Hd Hticks.
  destruct (loop_ticks_stop app ctx ticks Hi Hticks
              {| registry := registry s; logs := logs s;
                 events := (events s ++ [EvNewTicker (TimeBetweenChecks app)])%list |})
    as (s1 & t & Hloop & Hev & Hc1 & Hc2).
  exists s1, t. split.
  - unfold recordMetrics, time_NewTicker.
    destruct (Z.leb_spec (TimeBetweenChecks app) 0) as [Hle|_]; [lia|].
    unfold bind at 1. unfold emit at 1.
    specialize (Hloop []). rewrite app_nil_r in Hloop. rewrite Hloop. reflexivity.
  - rewrite Hev. cbn [events]. rewrite <- app_assoc. auto.
Qed.

(** A run of failing polls, one per tick. *)
Lemma loop_failing_ticks app ctx post :
  forallb isTick post = true ->
  (forall w, In (case_ticker_C w) post -> exists st e, failsAt app w ctx st e) ->
  forall s, exists s',
    (forall rest, loop app ctx (post ++ rest) s = loop app ctx rest s') /\
    registry s' = registry s.
Proof.
  induction post as [|[w|] post IH]; intros Hticks Hall s.
  - exists s. split; [intros rest; reflexivity | reflexivity].
  - destruct (Hall w (or_introl eq_refl)) as (st & e & Hf).
    destruct (IH Hticks (fun w' Hin => Hall w' (or_intror Hin))
                {| registry := registry s; logs := (logs s ++ [errorEntry st e])%list;
                   events := (events s ++ pollEvents app (Some st))%list |})
      as (s' & Hloop & Hreg).
    exists s'. split; [|exact Hreg].
    intros rest. simpl. unfold bind. rewrite (poll_fails app w ctx s st e Hf). apply Hloop.
  - discriminate Hticks.
Qed.

(** X13. Errors do not stop the loop and do not blur the gauges: after
    any ticks, a tick whose poll decodes a reading, and then any number of
    ticks whose polls fail, the gauges show that reading. *)
Theorem gauges_show_last_good_reading app ctx pre w post rest s body a :
  initialized app -> serving (registry s) ->
  forallb isTick pre = true -> forallb isTick post = true ->
  receives app w ctx body -> decodes body a ->
  (forall w', In (case_ticker_C w') post -> exists st e, failsAt app w' ctx st e) ->
  exists s',
    loop app ctx (pre ++ case_ticker_C w :: post ++ rest) s = loop app ctx rest s' /\
    shows (registry s') a.
Proof.
  intros Hi Hs Hpre Hpost Hr Hd Hall.
  destruct (loop_ticks app ctx pre Hi Hpre s) as (s1 & t & Hloop & _ & _ & _ & _ & _ & Hs1).
  destruct (loop_failing_ticks app ctx post Hpost Hall
              {| registry := publish a (registry s1); logs := (logs s1 ++ [successEntry a])%list;
                 events := (events s1 ++ pollEvents app None)%list |})
    as (s' & Hloop' & Hreg).
  exists s'. split.
  - rewrite Hloop. simpl. unfold bind.
    rewrite (poll_succeeds app w ctx s1 body a Hi Hr Hd). apply Hloop'.
  - rewrite Hreg. cbn [registry]. apply shows_publish. apply Hs1. exact Hs.
Qed.

End Ticks.

(** ** [initializeGauges] on a registry that is not fresh *)

Section Clash.

Context `{TimePkg}.

Lemma NewGauge_cases opts st :
  prometheus.IsValidMetricName
    (prometheus.BuildFQName (Namespace opts) (Subsystem opts) (Name opts)) = true ->
  promauto_NewGauge opts st =
  if prometheus.registered
       (prometheus.BuildFQName (Namespace opts) (Subsystem opts) (Name opts)) (registry st)
  then Panics "duplicate metrics collector registration attempted" st
  else Returns (Some (prometheus.BuildFQName (Namespace opts) (Subsystem opts) (Name opts)))
         {| registry := (registry st
                         ++ [{| fqName := prometheus.BuildFQName (Namespace opts)
                                            (Subsystem opts) (Name opts);
                                help := Help opts; val := float64.zero |}])%list;
            logs := logs st;
            events := (events st
                       ++ [EvRegister (prometheus.BuildFQName (Namespace opts)
                                         (Subsystem opts) (Name opts))])%list |}.
Proof. intros Hv. unfold promauto_NewGauge. rewrite Hv. reflexivity. Qed.

Lemma zeroGauges_list : zeroGauges = zeroGaugeList.
Proof. vm_compute. reflexivity. Qed.

Ltac clash_step s :=
  unfold bind at 1; rewrite NewGauge_cases by reflexivity;
  cbn [registry logs events Help]; rewrite <- ?app_assoc; rewrite registered_app;
  match goal with
  | |- context [prometheus.registered ?n (registry s)] =>
      let Hk := fresh "Hk" in
      destruct (prometheus.registered n (registry s)) eqn:Hk
  end;
  [ cbn [orb]; lazy [bind]; do 5 eexists;
    split; [reflexivity|]; cbn [registry logs events];
    split; [reflexivity|]; split; [reflexivity|]; split; [reflexivity|];
    split; reflexivity
  | cbn [orb];
    match goal with
    | |- context [if ?b then Panics _ _ else _] => change b with false
    end;
    cbv iota ].

(** The run of [initializeGauges] up to the first name that is taken. *)
Lemma initializeGauges_clash app s :
  (exists g, prometheus.registered (metricName g) (registry s) = true) ->
  exists v s' gs rest t,
    initializeGauges app s = Panics v s' /\
    registry s' = (registry s ++ gs)%list /\
    zeroGaugeList = (gs ++ rest)%list /\
    logs s' = logs s /\
    events s' = (events s ++ t)%list /\
    forallb isRegister t = true.
Proof.
  intros Hex. unfold zeroGaugeList, initializeGauges.
  unfold bind at 1. rewrite NewGauge_cases by reflexivity.
  cbn [registry logs events Help].
  match goal with
  | |- context [prometheus.registered ?n (registry s)] =>
      destruct (prometheus.registered n (registry s)) eqn:Hk0
  end.
  { lazy [bind]. do 2 eexists. exists []. eexists. exists [].
    split; [reflexivity|]. split; [rewrite app_nil_r; reflexivity|].
    split; [reflexivity|]. split; [reflexivity|].
    split; [rewrite app_nil_r; reflexivity|reflexivity]. }
  do 13 clash_step s.
  exfalso. destruct Hex as [g Hg].
  destruct g;
    match goal with
    | Hk : prometheus.registered _ (registry s) = false |- _ =>
        discriminate (eq_trans (eq_sym Hk) Hg)
    end.
Qed.

(** X14. [initializeGauges] returns only on a registry in which none of
    its fourteen names is taken. When one is taken it panics in
    [MustRegister]: the collectors that were registered stay, the gauges
    created before the clash stay registered as well, and nothing is
    logged. *)
Theorem initializeGauges_clash_panics app s :
  (exists g, prometheus.registered (metricName g) (registry s) = true) ->
  exists v s' gs rest,
    initializeGauges app s = Panics v s' /\
    registry s' = (registry s ++ gs)%list /\
    zeroGauges = (gs ++ rest)%list /\
    logs s' = logs s.
Proof.
  intros Hex.
  destruct (initializeGauges_clash app s Hex) as (v & s' & gs & rest & t & Hrun & Hr & Hz & Hl & _).
  exists v, s', gs, rest. rewrite zeroGauges_list. auto.
Qed.

(** With X14 and the run on a fresh registry: [initializeGauges] returns
    exactly on the fresh registries. *)
Lemma initializeGauges_returns_iff_fresh app s :
  (exists app' s', initializeGauges app s = Returns app' s') <-> fresh (registry s).
Proof.
  split.
  - intros (app' & s' & Hrun) g.
    destruct (prometheus.registered (metricName g) (registry s)) eqn:Hg; [|reflexivity].
    destruct (initializeGauges_clash_panics app s (ex_intro _ g Hg)) as (v & s1 & _ & _ & Hp & _).
    rewrite Hp in Hrun. discriminate Hrun.
  - intros Hf. destruct (initializeGauges_run app s Hf) as (app' & Hrun & _). eauto.
Qed.

End Clash.

(** ** What a poll asks of the world *)

Section Asks.

Context `{TimePkg}.

Lemma poll_same_world app w w' ctx s :
  url_Parse w (AwairAddress app) = url_Parse w' (AwairAddress app) ->
  RoundTrip w (request app ctx) = RoundTrip w' (request app ctx) ->
  getAwairData app w ctx s = getAwairData app w' ctx s.
Proof.
  intros Hu Hr.
  unfold getAwairData, http_NewRequestWithContext, http_DefaultClient_Do.
  fold (request app ctx). rewrite Hu.
  destruct (url_Parse w' (AwairAddress app)); [reflexivity|].
  lazy [defer bind emit ret registry logs events]. rewrite Hr. reflexivity.
Qed.

(** X15. After the start of [main], a poll asks the world two things
    only: whether the address given by the flag [awair-address] is a URL,
    and what the transport answers to one GET request for that address
    under a timeout of one second on the context of the loop. Two worlds
    that agree on these give the same poll. *)
Theorem poll_asks_for_configured_address flags s0 :
  fresh (registry s0) ->
  exists app s1,
    main_start flags s0 = Returns app s1 /\
    forall w w' ctx s,
      url_Parse w (flag_awair_address flags) = url_Parse w' (flag_awair_address flags) ->
      RoundTrip w {| req_ctx := {| cancelled := cancelled ctx;
                                   timeouts := Second :: timeouts ctx |};
                     Method := "GET"; URL := flag_awair_address flags |}
      = RoundTrip w' {| req_ctx := {| cancelled := cancelled ctx;
                                      timeouts := Second :: timeouts ctx |};
                        Method := "GET"; URL := flag_awair_address flags |} ->
      getAwairData app w ctx s = getAwairData app w' ctx s.
Proof.
  intros Hf.
  destruct (main_start_run flags s0 Hf) as (app & Hrun & _ & Ha & _).
  do 2 eexists. split; [exact Hrun|].
  intros w w' ctx s Hu Hr. apply poll_same_world.
  - rewrite Ha. exact Hu.
  - unfold request, context_WithTimeout, MethodGet. rewrite Ha. exact Hr.
Qed.

End Asks.

(** ** [float64] of an integer *)

Lemma digits2_iter_xO p k :
  digits2_pos (Pos.iter xO p k) = (digits2_pos p + k)%positive.
Proof.
  induction k as [|k IH] using Pos.peano_ind.
  - simpl. rewrite Pos.add_1_r. reflexivity.
  - rewrite Pos.iter_succ. simpl. rewrite IH. lia.
Qed.

Lemma Zpos_iter_xO p k : Zpos (Pos.iter xO p k) = Zpos p * 2 ^ Zpos k.
Proof.
  induction k as [|k IH] using Pos.peano_ind.
  - simpl. lia.
  - rewrite Pos.iter_succ. rewrite Pos2Z.inj_xO, IH, Pos2Z.inj_succ, Z.pow_succ_r by lia.
    ring.
Qed.

Lemma digits2_bound p : Zpos p < 2 ^ Zpos (digits2_pos p).
Proof.
  induction p as [p IH|p IH|]; cbn [digits2_pos].
  - rewrite Pos2Z.inj_succ, Z.pow_succ_r by lia. lia.
  - rewrite Pos2Z.inj_succ, Z.pow_succ_r by lia. lia.
  - reflexivity.
Qed.

Lemma digits2_small p n : 0 <= n -> Zpos p < 2 ^ n -> Zpos (digits2_pos p) <= n.
Proof.
  revert n. induction p as [p IH|p IH|]; intros n Hn Hp; cbn [digits2_pos].
  - rewrite Pos2Z.inj_succ.
    assert (n <> 0) by (intros ->; simpl in Hp; lia).
    assert (Zpos p < 2 ^ (n - 1)).
    { replace n with (Z.succ (n - 1)) in Hp by lia. rewrite Z.pow_succ_r in Hp by lia. lia. }
    specialize (IH (n - 1)). lia.
  - rewrite Pos2Z.inj_succ.
    assert (n <> 0) by (intros ->; simpl in Hp; lia).
    assert (Zpos p < 2 ^ (n - 1)).
    { replace n with (Z.succ (n - 1)) in Hp by lia. rewrite Z.pow_succ_r in Hp by lia. lia. }
    specialize (IH (n - 1)). lia.
  - destruct n; simpl in Hp; lia.
Qed.

Lemma round_aux_exact s m e :
  digits2_pos m = 53%positive -> -1074 <= e <= 971 ->
  binary_round_aux 53 1024 s (Zpos m) e loc_Exact = S754_finite s m e.
Proof.
  intros Hd He.
  unfold binary_round_aux.
  assert (Hshr : shr_fexp 53 1024 (Zpos m) e loc_Exact
                 = ({| shr_m := Zpos m; shr_r := false; shr_s := false |}, e)).
  { unfold shr_fexp, Zdigits2. rewrite Hd. unfold fexp, emin.
    replace (Z.max (53 + e - 53) (3 - 1024 - 53) - e) with 0 by lia.
    reflexivity. }
  rewrite Hshr. cbn [shr_m loc_of_shr_record round_nearest_even]. rewrite Hshr.
  cbn [shr_m].
  destruct (Z.leb_spec e (1024 - 53)) as [_|Hgt]; [reflexivity|lia].
Qed.

Lemma round_trip_magnitude s p :
  Zpos p < 2 ^ 53 ->
  float64_to_int (binary_round 53 1024 s p 0) = Some (if s then - Zpos p else Zpos p).
Proof.
  intros Hp. pose proof (digits2_small p 53 ltac:(lia) Hp) as HD.
  unfold binary_round, shl_align, fexp, emin.
  replace (Z.max (Z.pos (digits2_pos p) + 0 - 53) (3 - 1024 - 53))
    with (Z.pos (digits2_pos p) - 53) by lia.
  rewrite Z.sub_0_r.
  destruct (Z.pos (digits2_pos p) - 53) as [|k|k] eqn:Hk; [| lia |].
  - rewrite round_aux_exact; [reflexivity | | lia].
    assert (E : Z.pos (digits2_pos p) = 53) by lia. injection E as ->. reflexivity.
  - rewrite round_aux_exact; [| | lia].
    + cbn [float64_to_int]. rewrite Zpos_iter_xO.
      rewrite Z.mod_mul, Z.eqb_refl, Z.div_mul by lia. reflexivity.
    + rewrite digits2_iter_xO.
      assert (E : Z.pos (digits2_pos p + k) = 53) by lia. injection E as ->. reflexivity.
Qed.

(** X16. The cast of an integer reading is exact: for every integer of
    magnitude below 2^53, [float64(n)] is the float that equals [n], so two
    different readings never give the same gauge value. *)
Theorem of_int_exact n :
  - 2 ^ 53 < n < 2 ^ 53 ->
  float64_to_int (float64.of_int n) = Some n /\
  forall m, - 2 ^ 53 < m < 2 ^ 53 -> float64.of_int m = float64.of_int n -> m = n.
Proof.
  assert (Hexact : forall k, - 2 ^ 53 < k < 2 ^ 53 ->
                             float64_to_int (float64.of_int k) = Some k).
  { intros k Hk. unfold float64.of_int, binary_normalize, float64.prec, float64.emax.
    destruct k as [|p|p].
    - reflexivity.
    - apply (round_trip_magnitude false p). lia.
    - apply (round_trip_magnitude true p). lia. }
  intros Hn. split; [apply Hexact; exact Hn|].
  intros m Hm E. apply Hexact in Hm. rewrite E, (Hexact n Hn) in Hm. congruence.
Qed.

(** ** Which key names which field *)

Lemma fold_tag_inj f f' : json.foldName (tag f) = json.foldName (tag f') -> f = f'.
Proof. destruct f, f'; intros E; try reflexivity; vm_compute in E; discriminate E. Qed.

(** X18. A key of the object names a field exactly when it equals the
    tag of the field up to case: the tags of [AwairStats] stay different
    under case folding, so no key is taken for two fields, and which field
    a key goes to does not depend on the order of the fields. *)
Theorem key_names_field_up_to_case k f :
  json.fieldOf k = Some f <-> json.foldName k = json.foldName (tag f).
Proof.
  split; [intros Hk; symmetry; apply fieldOf_fold; exact Hk|].
  intros Hfold. unfold json.fieldOf, fields. cbn [find].
  repeat match goal with
  | |- context [String.eqb (tag ?f0) k] =>
      let E := fresh "E" in
      destruct (String.eqb_spec (tag f0) k) as [E|E];
      [ f_equal; apply fold_tag_inj; rewrite E; exact Hfold | clear E ]
  end.
  repeat match goal with
  | |- context [String.eqb (json.foldName (tag ?f0)) (json.foldName k)] =>
      let E := fresh "E" in
      destruct (String.eqb_spec (json.foldName (tag f0)) (json.foldName k)) as [E|E];
      [ f_equal; apply fold_tag_inj; rewrite E; exact Hfold | ]
  end.
  exfalso. destruct f;
    match goal with
    | Hf : _ = json.foldName (tag ?g), E : json.foldName (tag ?g) <> _ |- _ =>
        apply E; symmetry; exact Hf
    end.
Qed.

(** ** The start of [main] on a registry that is not fresh *)

Section StartClash.

Context `{TimePkg}.

Lemma initializeGauges_clash_events app s :
  (exists g, prometheus.registered (metricName g) (registry s) = true) ->
  exists v s' t,
    initializeGauges app s = Panics v s' /\
    events s' = (events s ++ t)%list /\
    forallb isRegister t = true /\
    logs s' = logs s.
Proof.
  intros Hex.
  destruct (initializeGauges_clash app s Hex) as (v & s' & gs & rest & t & Hrun & _ & _ & Hl & He & Ht).
  exists v, s', t. auto.
Qed.

Lemma count_registers t : forallb isRegister t = true ->
  count isGo t = 0%nat /\ count isHandle t = 0%nat.
Proof.
  induction t as [|e t IH]; [split; reflexivity|].
  simpl. intros Ht. apply andb_true_iff in Ht. destruct Ht as [He Ht].
  destruct (IH Ht) as [I1 I2]. unfold count in *.
  destruct e; try discriminate He; simpl; auto.
Qed.

(** X19. The start of [main] does all or nothing about its tasks: when one
    of the fourteen names is taken in the registry it panics while the
    gauges are created, before the handler of [/metrics] is installed and
    before either task is started. *)
Theorem main_start_clash_starts_nothing flags s0 :
  (exists g, prometheus.registered (metricName g) (registry s0) = true) ->
  exists v s' t,
    main_start flags s0 = Panics v s' /\
    events s' = (events s0 ++ t)%list /\
    count isGo t = 0%nat /\ count isHandle t = 0%nat /\
    logs s' = logs s0.
Proof.
  intros Hex. unfold main_start.
  match goal with
  | |- context [initializeGauges ?a] =>
      destruct (initializeGauges_clash_events a s0 Hex) as (v & s' & t & Hrun & Hev & Ht & Hl)
  end.
  exists v, s', t. unfold bind at 1. rewrite Hrun.
  destruct (count_registers t Ht) as [H1 H2]. auto.
Qed.

End StartClash.

(** ** The further properties on sample inputs *)

Lemma poll_touches_only_its_gauges_witness :
  map fqName (registry (after (getAwairData startedApp (answers 200 payload_scenario)
                                 background startedState)))
  = map fqName (registry startedState) /\
  map help (registry (after (getAwairData startedApp (answers 200 payload_scenario)
                               background startedState)))
  = map help (registry startedState) /\
  forall n, (forall g, n <> metricName g) ->
    prometheus.read n (registry (after (getAwairData startedApp
                                          (answers 200 payload_scenario)
                                          background startedState)))
    = prometheus.read n (registry startedState).
Proof.
  apply (poll_touches_only_its_gauges startedApp (answers 200 payload_scenario)
           background startedState).
  intros []; reflexivity.
Defined.

(** The collector of the library keeps its value through a poll. *)
Example poll_keeps_go_goroutines :
  prometheus.read "go_goroutines"
    (registry (after (getAwairData startedApp (answers 200 payload_scenario) background
                        startedState)))
  = Some (float64.of_int 7).
Proof. vm_compute. reflexivity. Qed.

Lemma later_poll_overwrites_witness :
  exists s1 s2 s2',
    getAwairData startedApp (answers 200 payload_scenario) background startedState
    = Returns None s1 /\
    getAwairData startedApp (answers 200 payload_other) background s1 = Returns None s2 /\
    getAwairData startedApp (answers 200 payload_other) background startedState
    = Returns None s2' /\
    registry s2 = registry s2'.
Proof.
  apply (later_poll_overwrites startedApp (answers 200 payload_scenario)
           (answers 200 payload_other) background background startedState
           payload_scenario payload_other
           (readingOf payload_scenario) (readingOf payload_other)).
  - intros []; reflexivity.
  - split; [reflexivity|]. eexists. split; reflexivity.
  - apply readingOf_decodes. vm_compute. reflexivity.
  - split; [reflexivity|]. eexists. split; reflexivity.
  - apply readingOf_decodes. vm_compute. reflexivity.
Defined.

(** After [temp = 21.5] and then a reading without [temp], [temp_c] is
    back at zero. *)
Example overwritten_temp :
  prometheus.read "awair_climate_temp_c"
    (registry (after (getAwairData startedApp (answers 200 payload_other) background
                        (after (getAwairData startedApp (answers 200 payload_scenario)
                                  background startedState)))))
  = Some float64.zero.
Proof. vm_compute. reflexivity. Qed.

Lemma poll_logs_once_witness :
  exists r s' en,
    getAwairData startedApp (answers 200 payload_scenario) background startedState
    = Returns r s' /\
    logs s' = (logs startedState ++ [en])%list /\
    (r = None -> Level en = InfoLevel /\
                 exists body a,
                   receives startedApp (answers 200 payload_scenario) background body /\
                   decodes body a /\ en = successEntry a) /\
    (forall e, r = Some e -> Level en = ErrorLevel /\ Fields en = [zap_Error e]).
Proof.
  apply (poll_logs_once startedApp (answers 200 payload_scenario) background startedState).
  intros []; reflexivity.
Defined.

Lemma poll_releases_resources_witness :
  exists t,
    events (after (getAwairData startedApp breaksOff background startedState))
    = (events startedState ++ t ++ [EvCancel])%list /\
    count isWithTimeout t = 1%nat /\
    (url_Parse breaksOff (AwairAddress startedApp) <> None -> count isDo t = 0%nat) /\
    (url_Parse breaksOff (AwairAddress startedApp) = None ->
     (forall e, RoundTrip breaksOff (request startedApp background) = inr e ->
        count isBodyClose t = 0%nat) /\
     (forall resp, RoundTrip breaksOff (request startedApp background) = inl resp ->
        exists t0, t = (t0 ++ [EvReadAll; EvBodyClose])%list /\
                   count isBodyClose t0 = 0%nat)).
Proof.
  apply (poll_releases_resources startedApp breaksOff background startedState).
  intros []; reflexivity.
Defined.

Lemma poll_on_nil_gauge_panics_witness :
  (exists v s',
      getAwairData blankApp (answers 200 payload_scenario) background processStart
      = Panics v s' /\
      registry s' = registry processStart /\ logs s' = logs processStart /\
      events s' = (events processStart ++ pollEvents blankApp None)%list) /\
  (forall w' st e, failsAt blankApp w' background st e ->
      exists s', getAwairData blankApp w' background processStart = Returns (Some e) s' /\
                 registry s' = registry processStart).
Proof.
  apply (poll_on_nil_gauge_panics blankApp (answers 200 payload_scenario) background
           processStart payload_scenario (readingOf payload_scenario)).
  - reflexivity.
  - split; [reflexivity|]. eexists. split; reflexivity.
  - apply readingOf_decodes. vm_compute. reflexivity.
Defined.

Lemma irrelevant_members_ignored_witness :
  getAwairData startedApp (answers 200 payload_extra) background startedState
  = getAwairData startedApp (answers 503 payload_plain) background startedState.
Proof.
  apply (irrelevant_members_ignored startedApp (answers 200 payload_extra)
           (answers 503 payload_plain) background background startedState
           payload_extra payload_plain
           [("co2", Number "612");
            ("firmware", Object [("v", Array [Number "1"; Number "2"])]);
            ("temp", Number "21.5")]
           [("co2", Number "612"); ("temp", Number "21.5")]).
  - split; [reflexivity|]. eexists. split; reflexivity.
  - split; [reflexivity|]. eexists. split; reflexivity.
  - vm_compute. reflexivity.
  - vm_compute. reflexivity.
  - vm_compute. reflexivity.
Defined.

Lemma misfit_member_fails_poll_witness :
  exists e s',
    getAwairData startedApp (answers 200 payload_fractional_co2) background stateAt500
    = Returns (Some e) s'
    /\ registry s' = registry stateAt500.
Proof.
  apply (misfit_member_fails_poll startedApp (answers 200 payload_fractional_co2) background
           stateAt500 payload_fractional_co2
           [("temp", Number "21.5"); ("co2", Number "612.5")]
           "co2" (Number "612.5") FCo2).
  - split; [reflexivity|]. eexists. split; reflexivity.
  - vm_compute. reflexivity.
  - right. left. reflexivity.
  - reflexivity.
  - vm_compute. reflexivity.
Defined.

(** A fractional [co2] fails the poll although [temp] is well formed:
    [temp_c] keeps its value and the error names the field. *)
Example fractional_co2_poll :
  returned (getAwairData startedApp (answers 200 payload_fractional_co2) background
              stateAt500)
  = Some (Some (json_UnmarshalTypeError "number 612.5" "co2"))
  /\ prometheus.read "awair_climate_temp_c"
       (registry (after (getAwairData startedApp (answers 200 payload_fractional_co2)
                           background stateAt500)))
     = Some float64.zero.
Proof. split; vm_compute; reflexivity. Qed.

Lemma last_member_decides_witness :
  exists s',
    getAwairData startedApp (answers 200 payload_twice) background startedState
    = Returns None s' /\
    prometheus.read "awair_climate_co2_ppm" (registry s') = Some (float64.of_int 612).
Proof.
  apply (last_member_decides startedApp (answers 200 payload_twice) background startedState
           payload_twice [("co2", Number "400"); ("temp", Number "1.5")] "co2" "612" []
           (readingOf payload_twice) FCo2 GCo2 (float64.of_int 612)).
  - intros []; reflexivity.
  - intros []; reflexivity.
  - split; [reflexivity|]. eexists. split; reflexivity.
  - apply readingOf_decodes. vm_compute. reflexivity.
  - vm_compute. reflexivity.
  - reflexivity.
  - reflexivity.
  - vm_compute. reflexivity.
  - intros k' [].
Defined.

Lemma non_object_body_fails_poll_witness :
  (scanner.scan payload_array = None ->
   exists s',
     getAwairData startedApp (answers 200 payload_array) background stateAt500
     = Returns (Some json_SyntaxError) s' /\
     registry s' = registry stateAt500) /\
  (forall v, scanner.scan payload_array = Some v ->
     v <> Null -> (forall ms, v <> Object ms) ->
     exists what s',
       getAwairData startedApp (answers 200 payload_array) background stateAt500
       = Returns (Some (json_UnmarshalTypeError what EmptyString)) s' /\
       registry s' = registry stateAt500).
Proof.
  apply (non_object_body_fails_poll startedApp (answers 200 payload_array) background
           stateAt500 payload_array).
  split; [reflexivity|]. eexists. split; reflexivity.
Defined.

Example array_body_poll :
  returned (getAwairData startedApp (answers 200 payload_array) background stateAt500)
  = Some (Some (json_UnmarshalTypeError "array" ""))
  /\ returned (getAwairData startedApp (answers 200 "") background stateAt500)
     = Some (Some json_SyntaxError).
Proof. split; vm_compute; reflexivity. Qed.

Lemma empty_reading_zeroes_gauges_witness :
  exists s',
    getAwairData startedApp (answers 200 payload_unknown) background stateAt500
    = Returns None s' /\
    forall g, prometheus.read (metricName g) (registry s') = Some float64.zero.
Proof.
  apply (empty_reading_zeroes_gauges startedApp (answers 200 payload_unknown) background
           stateAt500 payload_unknown
           (Object [("firmware", Str "1.2"); ("uptime", Array [Number "1"; Number "2"]);
                    ("co2", Null)])).
  - intros []; reflexivity.
  - intros []; reflexivity.
  - split; [reflexivity|]. eexists. split; reflexivity.
  - vm_compute. reflexivity.
  - right. eexists. split; [reflexivity|]. vm_compute. reflexivity.
Defined.

Lemma recordMetrics_panics_on_bad_interval_witness :
  recordMetrics stalledApp background
    [case_ticker_C (answers 200 payload_scenario); case_ctx_Done] startedState
  = Panics "non-positive interval for NewTicker" startedState.
Proof.
  apply (recordMetrics_panics_on_bad_interval stalledApp background
           [case_ticker_C (answers 200 payload_scenario); case_ctx_Done] startedState).
  vm_compute. discriminate.
Defined.

Lemma recordMetrics_polls_once_per_tick_witness :
  exists s' t,
    recordMetrics startedApp background
      ([case_ticker_C unreachable; case_ticker_C (answers 200 payload_scenario)]
       ++ case_ctx_Done :: [case_ticker_C unreachable]) startedState
    = Returns Returned s' /\
    events s' = (events startedState ++ [EvNewTicker (TimeBetweenChecks startedApp)] ++ t
                 ++ [EvTickerStop])%list /\
    count isWithTimeout t
    = List.length [case_ticker_C unreachable; case_ticker_C (answers 200 payload_scenario)] /\
    count isNewRequest t
    = List.length [case_ticker_C unreachable; case_ticker_C (answers 200 payload_scenario)] /\
    map fqName (registry s') = map fqName (registry startedState) /\
    forall rest',
      recordMetrics startedApp background
        ([case_ticker_C unreachable; case_ticker_C (answers 200 payload_scenario)]
         ++ case_ctx_Done :: rest') startedState
      = Returns Returned s'.
Proof.
  apply (recordMetrics_polls_once_per_tick startedApp background
           [case_ticker_C unreachable; case_ticker_C (answers 200 payload_scenario)]
           [case_ticker_C unreachable] startedState).
  - intros []; reflexivity.
  - reflexivity.
  - reflexivity.
Defined.

Lemma gauges_show_last_good_reading_witness :
  exists s',
    loop startedApp background
      ([case_ticker_C unreachable]
       ++ case_ticker_C (answers 200 payload_co2_500)
          :: [case_ticker_C breaksOff; case_ticker_C unreachable] ++ [case_ctx_Done])
      startedState
    = loop startedApp background [case_ctx_Done] s' /\
    shows (registry s') (readingOf payload_co2_500).
Proof.
  apply (gauges_show_last_good_reading startedApp background
           [case_ticker_C unreachable] (answers 200 payload_co2_500)
           [case_ticker_C breaksOff; case_ticker_C unreachable] [case_ctx_Done]
           startedState payload_co2_500 (readingOf payload_co2_500)).
  - intros []; reflexivity.
  - intros []; reflexivity.
  - reflexivity.
  - reflexivity.
  - split; [reflexivity|]. eexists. split; reflexivity.
  - apply readingOf_decodes. vm_compute. reflexivity.
  - intros w' [E|[E|[]]]; injection E as <-.
    + exists BodyRead, (io_Error "unexpected EOF").
      split; [reflexivity|]. eexists. split; reflexivity.
    + exists Transport. eexists. split; reflexivity.
Defined.

Lemma initializeGauges_clash_panics_witness :
  exists v s' gs rest,
    initializeGauges startedApp startedState = Panics v s' /\
    registry s' = (registry startedState ++ gs)%list /\
    zeroGauges = (gs ++ rest)%list /\
    logs s' = logs startedState.
Proof.
  apply (initializeGauges_clash_panics startedApp startedState).
  exists GTemp. reflexivity.
Defined.

Lemma poll_asks_for_configured_address_witness :
  exists app s1,
    main_start defaultFlags processStart = Returns app s1 /\
    forall w w' ctx s,
      url_Parse w (flag_awair_address defaultFlags)
      = url_Parse w' (flag_awair_address defaultFlags) ->
      RoundTrip w {| req_ctx := {| cancelled := cancelled ctx;
                                   timeouts := Second :: timeouts ctx |};
                     Method := "GET"; URL := flag_awair_address defaultFlags |}
      = RoundTrip w' {| req_ctx := {| cancelled := cancelled ctx;
                                      timeouts := Second :: timeouts ctx |};
                        Method := "GET"; URL := flag_awair_address defaultFlags |} ->
      getAwairData app w ctx s = getAwairData app w' ctx s.
Proof.
  apply (poll_asks_for_configured_address defaultFlags processStart).
  intros []; reflexivity.
Defined.

Lemma of_int_exact_witness :
  float64_to_int (float64.of_int 612) = Some 612 /\
  forall m, - 2 ^ 53 < m < 2 ^ 53 -> float64.of_int m = float64.of_int 612 -> m = 612.
Proof.
  apply (of_int_exact 612). split; reflexivity.
Defined.

Lemma recordMetrics_waits_without_Done_witness :
  exists s' t,
    recordMetrics startedApp background
      [case_ticker_C unreachable; case_ticker_C noURL] startedState
    = Returns Waiting s' /\
    events s' = (events startedState ++ [EvNewTicker (TimeBetweenChecks startedApp)]
                 ++ t)%list /\
    count isWithTimeout t = List.length [case_ticker_C unreachable; case_ticker_C noURL] /\
    count isTickerStop t = 0%nat.
Proof.
  apply (recordMetrics_waits_without_Done startedApp background
           [case_ticker_C unreachable; case_ticker_C noURL] startedState).
  - intros []; reflexivity.
  - reflexivity.
  - reflexivity.
Defined.

(** Keys in other cases, and with the two letters outside ASCII that fold
    to S and K, name the fields; a key with an accent does not. *)
Example keys_up_to_case :
  json.fieldOf "Temp" = Some FTemp /\ json.fieldOf "CO2_EST" = Some FCo2Est /\
  json.fieldOf "ſcore" = Some FScore /\ json.fieldOf "témp" = None.
Proof. repeat split; vm_compute; reflexivity. Qed.

Lemma main_start_clash_starts_nothing_witness :
  exists v s' t,
    main_start defaultFlags startedState = Panics v s' /\
    events s' = (events startedState ++ t)%list /\
    count isGo t = 0%nat /\ count isHandle t = 0%nat /\
    logs s' = logs startedState.
Proof.
  apply (main_start_clash_starts_nothing defaultFlags startedState).
  exists GTemp. reflexivity.
Defined.
